(** * Plant journal: the local journal store and the AI provider layer

    A shallow embedding of [services/storage.ts], [services/ai.ts], the
    data types of [types.ts] and the handlers of [App.tsx] that call
    them, followed by the properties of the specification that concern
    them. *)

From Stdlib Require Import NArith String Ascii.
From stdpp Require Import gmap list.

(** ** JavaScript strings

    A JavaScript string is a sequence of UTF-16 code units. *)

Abbreviation jsstring := (list N).

(** An ASCII literal of the source as a JavaScript string. *)
Definition js (s : string) : jsstring :=
  N_of_ascii <$> list_ascii_of_string s.
Arguments js s%_string.

(** A string is falsy exactly when it is empty. *)
Definition truthy_string (s : jsstring) : bool :=
  match s with
  | [] => false
  | _ :: _ => true
  end.

(** [undefined] or a string, as an operand of [!], [&&], [||] and [if]. *)
Definition truthy (o : option jsstring) : bool :=
  match o with
  | Some s => truthy_string s
  | None => false
  end.

(** String interpolation [`${x}`] of a value that may be [undefined]. *)
Definition interpolate (o : option jsstring) : jsstring :=
  match o with
  | Some s => s
  | None => js "undefined"
  end.

(** The code units [String.prototype.trim] removes: ECMAScript WhiteSpace
    (TAB, VT, FF, ZWNBSP and the space separators) and LineTerminator. *)
Definition is_white_space (c : N) : bool :=
  ((c =? 9) || (c =? 10) || (c =? 11) || (c =? 12) || (c =? 13) || (c =? 32)
   || (c =? 160) || (c =? 5760) || ((8192 <=? c) && (c <=? 8202))
   || (c =? 8232) || (c =? 8233) || (c =? 8239) || (c =? 8287)
   || (c =? 12288) || (c =? 65279))%N.

Fixpoint trimStart (s : jsstring) : jsstring :=
  match s with
  | [] => []
  | c :: s' => if is_white_space c then trimStart s' else s
  end.

Definition trimEnd (s : jsstring) : jsstring :=
  reverse (trimStart (reverse s)).

Definition trim (s : jsstring) : jsstring := trimEnd (trimStart s).

(** ** Exceptions and effects *)

Inductive JsError : Type :=
  | Error (message : jsstring)
  | TypeError (message : jsstring)
  | SyntaxError (message : jsstring)
  | DOMException (name : jsstring).

Inductive Result (A : Type) : Type :=
  | Return (a : A)
  | Throw (e : JsError).
Arguments Return {A} a.
Arguments Throw {A} e.

(** A computation over a state [S] that returns a value or throws. The
    promises of the source are awaited one after the other, so that an
    [async] function is such a computation too. *)
Definition Eff (S A : Type) : Type := S -> Result A * S.

Definition ret {S A : Type} (a : A) : Eff S A := fun s => (Return a, s).

Definition throw {S A : Type} (e : JsError) : Eff S A :=
  fun s => (Throw e, s).

Definition bind {S A B : Type} (m : Eff S A) (k : A -> Eff S B) : Eff S B :=
  fun s =>
    match m s with
    | (Return a, s') => k a s'
    | (Throw e, s') => (Throw e, s')
    end.

(** [try { body } catch (e) { handler e }] *)
Definition try_catch {S A : Type} (body : Eff S A)
    (handler : JsError -> Eff S A) : Eff S A :=
  fun s =>
    match body s with
    | (Return a, s') => (Return a, s')
    | (Throw e, s') => handler e s'
    end.

(** A value that throws or returns, inside a computation. *)
Definition lift {S A : Type} (r : Result A) : Eff S A := fun s => (r, s).

Notation "'let*' x ':=' m 'in' k" := (bind m (fun x => k))
  (at level 10, x name, m at level 100, k at level 200).
Notation "m ;; k" := (bind m (fun _ => k))
  (at level 100, k at level 200, right associativity).

(** A text handed to [JSON.parse], represented by what [JSON.parse] makes
    of it: either a text it rejects, or the JSON text of a value, the one
    [JSON.stringify] writes and [JSON.parse] reads back. The message of
    the [SyntaxError] stands for the engine's text. *)
Inductive JsonText (A : Type) : Type :=
  | NotJson (s : jsstring)
  | JsonOf (v : A).
Arguments NotJson {A} s.
Arguments JsonOf {A} v.

Definition JSON_parse {A : Type} (t : JsonText A) : Result A :=
  match t with
  | NotJson _ => Throw (SyntaxError (js "Unexpected token"))
  | JsonOf v => Return v
  end.

Definition JSON_stringify {A : Type} (v : A) : JsonText A := JsonOf v.

(** The empty string is the only falsy text, and it is not JSON. *)
Definition truthy_text {A : Type} (t : JsonText A) : bool :=
  match t with
  | NotJson s => truthy_string s
  | JsonOf _ => true
  end.

(** ** types.ts *)

(** The three string unions of [PlantAnalysis], each in a module of its
    own since two of them share ['medium']. *)
Module Level.
Inductive t : Type := low | medium | high.
End Level.

Module Toxicity.
Inductive t : Type := toxic | safe | unknown.
End Toxicity.

Module Difficulty.
Inductive t : Type := easy | medium | hard.
End Difficulty.

Module PlantAnalysis.
Record t : Type := mk {
  commonName : jsstring;
  scientificName : jsstring;
  description : jsstring;
  lightRequirement : Level.t;
  wateringRequirement : Level.t;
  temperatureRange : jsstring;
  toxicity : Toxicity.t;
  difficulty : Difficulty.t;
  funFacts : list jsstring
}.
End PlantAnalysis.

Module PlantNote.
Record t : Type := mk {
  id : jsstring;
  date : jsstring;
  text : jsstring
}.
End PlantNote.

(** [UserPlant extends PlantAnalysis]. A stored entry may lack the [notes]
    key, which [addNoteToPlant] reads as [plant.notes || []]. *)
Module UserPlant.
Record t : Type := mk {
  analysis : PlantAnalysis.t;
  id : jsstring;
  image : jsstring;
  dateAdded : jsstring;
  isFavorite : bool;
  notes : option (list PlantNote.t)
}.

Definition set_isFavorite (b : bool) (p : t) : t :=
  mk (analysis p) (id p) (image p) (dateAdded p) b (notes p).

Definition set_notes (ns : list PlantNote.t) (p : t) : t :=
  mk (analysis p) (id p) (image p) (dateAdded p) (isFavorite p) (Some ns).
End UserPlant.

(** [plant.notes || []] *)
Definition notes_or_empty (p : UserPlant.t) : list PlantNote.t :=
  match UserPlant.notes p with
  | Some ns => ns
  | None => []
  end.

Module ToastMessage.
Inductive type_t : Type := success | error | info.
Record t : Type := mk { type : type_t; text : jsstring }.
End ToastMessage.

(** ** localStorage

    The items of the origin, and whether the browser lets the page use
    them: [Denied] is a storage every access to which throws, and
    [QuotaExceeded] one that can be read but takes no further write.

    An item is a text. One that is JSON is taken to be the text of a
    collection of entries, which is what the module writes under its key
    and what the signature of [getPlants] declares; a text that
    [JSON.parse] accepts but that is no array of entries is the matter of
    [getPlants_any] further down. *)

Inductive Access : Type := Granted | QuotaExceeded | Denied.

Record Storage : Type := {
  access : Access;
  items : gmap jsstring (JsonText (list UserPlant.t))
}.

Definition getItem (key : jsstring)
    : Eff Storage (option (JsonText (list UserPlant.t))) :=
  fun st =>
    match access st with
    | Denied => (Throw (DOMException (js "SecurityError")), st)
    | _ => (Return (items st !! key), st)
    end.

Definition setItem (key : jsstring) (value : JsonText (list UserPlant.t))
    : Eff Storage unit :=
  fun st =>
    match access st with
    | Granted =>
        (Return tt, {| access := Granted; items := <[key := value]> (items st) |})
    | QuotaExceeded => (Throw (DOMException (js "QuotaExceededError")), st)
    | Denied => (Throw (DOMException (js "SecurityError")), st)
    end.

(** The clock readings a call takes: [Date.now().toString()] and
    [new Date().toISOString()]. *)
Record Clock : Type := {
  Date_now_toString : jsstring;
  Date_toISOString : jsstring
}.

(** [Array.prototype.findIndex]; [None] stands for [-1]. *)
Fixpoint findIndex {A : Type} (f : A -> bool) (l : list A) : option nat :=
  match l with
  | [] => None
  | x :: l' => if f x then Some 0 else S <$> findIndex f l'
  end.

(** ** services/storage.ts *)

Definition STORAGE_KEY : jsstring := js "botanical_diary_plants_v1".

(** The [catch] branch also writes to the console, which is not part of
    the state modelled here. *)
Definition getPlants : Eff Storage (list UserPlant.t) :=
  try_catch
    (let* data := getItem STORAGE_KEY in
     match data with
     | Some text => if truthy_text text then lift (JSON_parse text) else ret []
     | None => ret []
     end)
    (fun _ => ret []).

Definition savePlant (plant : UserPlant.t) : Eff Storage unit :=
  let* plants := getPlants in
  let updatedPlants := plant :: plants in
  setItem STORAGE_KEY (JSON_stringify updatedPlants).

Definition id_is (plantId : jsstring) (p : UserPlant.t) : bool :=
  bool_decide (UserPlant.id p = plantId).

Definition updatePlant (updatedPlant : UserPlant.t) : Eff Storage unit :=
  let* plants := getPlants in
  match findIndex (id_is (UserPlant.id updatedPlant)) plants with
  | Some index =>
      setItem STORAGE_KEY (JSON_stringify (<[index := updatedPlant]> plants))
  | None => ret tt
  end.

Definition deletePlant (id : jsstring) : Eff Storage unit :=
  let* plants := getPlants in
  let filtered := filter (fun p => UserPlant.id p ≠ id) plants in
  setItem STORAGE_KEY (JSON_stringify filtered).

(** [plants[index]] of an index out of range is [undefined], and reading
    a property of it throws. *)
Definition at_index (plants : list UserPlant.t) (index : nat)
    : Eff Storage UserPlant.t :=
  match plants !! index with
  | Some plant => ret plant
  | None => throw (TypeError (js "Cannot read properties of undefined"))
  end.

Definition addNoteToPlant (clock : Clock) (plantId noteText : jsstring)
    : Eff Storage (option UserPlant.t) :=
  let* plants := getPlants in
  match findIndex (id_is plantId) plants with
  | None => ret None
  | Some index =>
      let newNote :=
        PlantNote.mk (Date_now_toString clock) (Date_toISOString clock)
          noteText in
      let* plant := at_index plants index in
      let plant := UserPlant.set_notes (newNote :: notes_or_empty plant) plant in
      let plants := <[index := plant]> plants in
      setItem STORAGE_KEY (JSON_stringify plants) ;;
      ret (Some plant)
  end.

Definition toggleFavoritePlant (plantId : jsstring)
    : Eff Storage (option UserPlant.t) :=
  let* plants := getPlants in
  match findIndex (id_is plantId) plants with
  | None => ret None
  | Some index =>
      let* plant := at_index plants index in
      let plants :=
        <[index := UserPlant.set_isFavorite (negb (UserPlant.isFavorite plant))
                     plant]> plants in
      setItem STORAGE_KEY (JSON_stringify plants) ;;
      ret (plants !! index)
  end.

(** ** JSON values

    What [JSON.parse] returns for the reply of a backend: the source casts
    it to [PlantAnalysis] and reads two of its properties. *)

#[local] Set Warnings "-register-all".

Inductive JSON : Type :=
  | JNull
  | JBool (b : bool)
  | JNumber (literal : jsstring)
  | JString (s : jsstring)
  | JArray (elements : list JSON)
  | JObject (properties : list (jsstring * JSON)).

(** [v.key], for a key that is neither an array index nor a name of a
    built-in prototype (such as [length]): [undefined] on every value but
    an object that owns the key, and a [TypeError] on [null], whose
    message here stands for the engine's text. *)
Definition get (v : JSON) (key : jsstring) : Result (option JSON) :=
  match v with
  | JNull => Throw (TypeError (js "Cannot read properties of null"))
  | JObject properties =>
      Return (snd <$> List.find (fun kv => bool_decide (fst kv = key)) properties)
  | _ => Return None
  end.

(** [x === 'literal'] *)
Definition strict_equals (x : option JSON) (literal : jsstring) : bool :=
  match x with
  | Some (JString s) => bool_decide (s = literal)
  | _ => false
  end.

(** ** The two backends, as the provider layer sees them *)

Record ErrorObject : Type := { message : option jsstring }.
Record ErrorBody : Type := { error : option ErrorObject }.

(** A settled [fetch]: [response.ok] with what [response.json()] gives,
    or a failure status with its text and body. *)
Inductive HttpResponse (A : Type) : Type :=
  | HttpOk (json : Result A)
  | HttpNotOk (statusText : jsstring) (json : Result ErrorBody).
Arguments HttpOk {A} json.
Arguments HttpNotOk {A} statusText json.

Module OpenAI.
Record Message : Type := { content : JsonText JSON }.
Record Choice : Type := { message : Message }.
Record ChatCompletion : Type := { choices : list Choice }.
Record Image : Type := { b64_json : option jsstring }.
Record ImagesResponse : Type := { data : list Image }.

(** The parts of the two request bodies that vary or that select the
    service; the fixed instruction texts of the chat request are left
    out. *)
Record ChatRequest : Type := {
  chat_authorization : jsstring;
  chat_model : jsstring;
  chat_image_url : jsstring
}.
Record ImagesRequest : Type := {
  images_authorization : jsstring;
  images_model : jsstring;
  images_prompt : jsstring;
  images_n : N;
  images_size : jsstring;
  images_response_format : jsstring
}.
End OpenAI.

Module Gemini.
Record InlineData : Type := {
  mimeType : option jsstring;
  data : option jsstring
}.
Record Part : Type := { inlineData : option InlineData }.
Record Content : Type := { parts : option (list Part) }.
Record Candidate : Type := { content : Content }.
Record GenerateContentResponse : Type := {
  text : option (JsonText JSON);
  candidates : option (list Candidate)
}.

(** [contents] of a request: an inline image with the fixed instruction
    (identification, under [plantSchema]), or a single text part. *)
Inductive Contents : Type :=
  | InlineImage (mimeType data : jsstring)
  | TextPart (text : jsstring).
Record GenerateContentRequest : Type := {
  apiKey : option jsstring;
  model : jsstring;
  contents : Contents
}.
End Gemini.

(** What the network answers to each request of a call. A rejected
    promise is a [Throw]. *)
Record World : Type := {
  fetch_chat_completions :
    OpenAI.ChatRequest -> Result (HttpResponse OpenAI.ChatCompletion);
  fetch_images_generations :
    OpenAI.ImagesRequest -> Result (HttpResponse OpenAI.ImagesResponse);
  generateContent :
    Gemini.GenerateContentRequest -> Result Gemini.GenerateContentResponse
}.

(** The observable steps of a call, in order. *)
Inductive Event : Type :=
  | console_log (text : jsstring)
  | console_error (label : jsstring) (e : JsError)
  | chat_completions (request : OpenAI.ChatRequest)
  | images_generations (request : OpenAI.ImagesRequest)
  | models_generateContent (request : Gemini.GenerateContentRequest).

Definition emit (e : Event) : Eff (list Event) unit :=
  fun trace => (Return tt, trace ++ [e]).

(** ** services/ai.ts *)

(** [process.env] *)
Record Env : Type := {
  API_KEY_OPENAI : option jsstring;
  API_KEY : option jsstring
}.

(** The constants the module binds when it is loaded. *)
Record AiModule : Type := {
  OPENAI_API_KEY : option jsstring;
  GEMINI_API_KEY : option jsstring;
  geminiAi : option jsstring (* the apiKey of the client *)
}.

Definition load (env : Env) : AiModule :=
  {| OPENAI_API_KEY := API_KEY_OPENAI env;
     GEMINI_API_KEY := API_KEY env;
     geminiAi := API_KEY env |}.

Definition NOT_A_PLANT : JsError :=
  Error (js "No se pudo identificar una planta en esta imagen.").

Definition NO_IMAGE : JsError := Error (js "No se pudo generar la imagen.").

(** [err.error?.message || response.statusText] *)
Definition openai_error_text (err : ErrorBody) (statusText : jsstring)
    : jsstring :=
  let m := match error err with Some e => message e | None => None end in
  if truthy m then interpolate m else statusText.

(** [array[0]], followed by a property read. The [TypeError] of an empty
    array is the engine's; its message here stands for the engine's
    text, which the code does not choose. *)
Definition first {S A : Type} (l : list A) : Eff S A :=
  match l with
  | x :: _ => ret x
  | [] => throw (TypeError (js "Cannot read properties of undefined"))
  end.

(** The [if] on the parsed reply that both [identifyWithOpenAI] and
    [identifyWithGemini] end with; [||] reads the second property only
    when the first comparison fails. *)
Definition reject_unknown (content : JSON) : Eff (list Event) JSON :=
  let* commonName := lift (get content (js "commonName")) in
  if strict_equals commonName (js "Unknown") then throw NOT_A_PLANT
  else
    let* scientificName := lift (get content (js "scientificName")) in
    if strict_equals scientificName (js "Unknown") then throw NOT_A_PLANT
    else ret content.

(** The suffix [generateImageWithOpenAI] adds to its prompt. *)
Definition OPENAI_STYLE : jsstring :=
  js ". Photorealistic, high quality, botanical photography style, isolated subject.".

Section provider.
Variable m : AiModule.
Variable w : World.

(** The four requests of the module. *)
Definition chat_request (base64Image : jsstring) : OpenAI.ChatRequest :=
  {| OpenAI.chat_authorization :=
       js "Bearer " ++ interpolate (OPENAI_API_KEY m);
     OpenAI.chat_model := js "gpt-4o";
     OpenAI.chat_image_url := base64Image |}.

Definition images_request (prompt : jsstring) : OpenAI.ImagesRequest :=
  {| OpenAI.images_authorization :=
       js "Bearer " ++ interpolate (OPENAI_API_KEY m);
     OpenAI.images_model := js "dall-e-3";
     OpenAI.images_prompt := prompt ++ OPENAI_STYLE;
     OpenAI.images_n := 1%N;
     OpenAI.images_size := js "1024x1024";
     OpenAI.images_response_format := js "b64_json" |}.

Definition identify_request (base64Data : jsstring)
    : Gemini.GenerateContentRequest :=
  {| Gemini.apiKey := geminiAi m;
     Gemini.model := js "gemini-2.5-flash";
     Gemini.contents := Gemini.InlineImage (js "image/jpeg") base64Data |}.

Definition image_request (prompt : jsstring)
    : Gemini.GenerateContentRequest :=
  {| Gemini.apiKey := geminiAi m;
     Gemini.model := js "gemini-2.5-flash-image";
     Gemini.contents := Gemini.TextPart prompt |}.

Definition identifyWithOpenAI (base64Image : jsstring)
    : Eff (list Event) JSON :=
  if negb (truthy (OPENAI_API_KEY m))
  then throw (Error (js "OpenAI API Key not found"))
  else
    let request := chat_request base64Image in
    emit (chat_completions request) ;;
    let* response := lift (fetch_chat_completions w request) in
    match response with
    | HttpNotOk statusText json =>
        let* err := lift json in
        throw (Error (js "OpenAI Error: " ++ openai_error_text err statusText))
    | HttpOk json =>
        let* data := lift json in
        let* choice := first (OpenAI.choices data) in
        let* content :=
          lift (JSON_parse (OpenAI.content (OpenAI.message choice))) in
        reject_unknown content
    end.

Definition generateImageWithOpenAI (prompt : jsstring)
    : Eff (list Event) jsstring :=
  if negb (truthy (OPENAI_API_KEY m))
  then throw (Error (js "OpenAI API Key not found"))
  else
    let request := images_request prompt in
    emit (images_generations request) ;;
    let* response := lift (fetch_images_generations w request) in
    match response with
    | HttpNotOk statusText json =>
        let* err := lift json in
        throw (Error (js "OpenAI Error: " ++ openai_error_text err statusText))
    | HttpOk json =>
        let* data := lift json in
        let* image := first (OpenAI.data data) in
        ret (js "data:image/png;base64," ++ interpolate (OpenAI.b64_json image))
    end.

(** [base64Image.replace(/^data:image\/(png|jpeg|jpg|webp);base64,/, ...)]
    with the empty string *)
Fixpoint strip_prefix (prefix s : jsstring) : option jsstring :=
  match prefix, s with
  | [], _ => Some s
  | p :: prefix', c :: s' =>
      if bool_decide (p = c) then strip_prefix prefix' s' else None
  | _ :: _, [] => None
  end.

Fixpoint strip_first (prefixes : list jsstring) (s : jsstring) : jsstring :=
  match prefixes with
  | [] => s
  | prefix :: prefixes' =>
      match strip_prefix prefix s with
      | Some rest => rest
      | None => strip_first prefixes' s
      end
  end.

Definition strip_data_url_prefix (base64Image : jsstring) : jsstring :=
  strip_first
    [js "data:image/png;base64,"; js "data:image/jpeg;base64,";
     js "data:image/jpg;base64,"; js "data:image/webp;base64,"]
    base64Image.

Definition identifyWithGemini (base64Image : jsstring)
    : Eff (list Event) JSON :=
  let base64Data := strip_data_url_prefix base64Image in
  try_catch
    (let request := identify_request base64Data in
     emit (models_generateContent request) ;;
     let* response := lift (generateContent w request) in
     match Gemini.text response with
     | None => throw (Error (js "No response from Gemini"))
     | Some text =>
         if negb (truthy_text text)
         then throw (Error (js "No response from Gemini"))
         else
           let* data := lift (JSON_parse text) in
           reject_unknown data
     end)
    (fun error =>
       emit (console_error (js "Gemini Error:") error) ;;
       throw error).

(** The [for] loop over the parts: the first part with a truthy
    [inlineData.data] gives the result. *)
Fixpoint first_inline_image (parts : list Gemini.Part) : option jsstring :=
  match parts with
  | [] => None
  | part :: parts' =>
      match Gemini.inlineData part with
      | Some inlineData =>
          if truthy (Gemini.data inlineData)
          then Some (js "data:" ++ interpolate (Gemini.mimeType inlineData)
                       ++ js ";base64," ++ interpolate (Gemini.data inlineData))
          else first_inline_image parts'
      | None => first_inline_image parts'
      end
  end.

Definition generateImageWithGemini (prompt : jsstring)
    : Eff (list Event) jsstring :=
  try_catch
    (let request := image_request prompt in
     emit (models_generateContent request) ;;
     let* response := lift (generateContent w request) in
     match Gemini.candidates response with
     | None => throw NO_IMAGE
     | Some candidates =>
         let* candidate := first candidates in
         match Gemini.parts (Gemini.content candidate) with
         | None => throw NO_IMAGE
         | Some parts =>
             match first_inline_image parts with
             | Some url => ret url
             | None => throw NO_IMAGE
             end
         end
     end)
    (fun error =>
       emit (console_error (js "Gemini Image Gen Error:") error) ;;
       throw error).

Definition identifyPlant (base64Image : jsstring) : Eff (list Event) JSON :=
  if truthy (OPENAI_API_KEY m)
  then
    emit (console_log (js "Using OpenAI for Identification")) ;;
    identifyWithOpenAI base64Image
  else
    emit (console_log (js "Using Gemini for Identification")) ;;
    identifyWithGemini base64Image.

Definition generatePlantImage (prompt : jsstring)
    : Eff (list Event) jsstring :=
  if truthy (OPENAI_API_KEY m)
  then
    emit (console_log (js "Using OpenAI for Image Generation")) ;;
    generateImageWithOpenAI prompt
  else
    emit (console_log (js "Using Gemini for Image Generation")) ;;
    generateImageWithGemini prompt.
End provider.

(** ** App.tsx: the state of the component and two of its handlers *)

Record App : Type := {
  plants : list UserPlant.t;
  selectedPlant : option UserPlant.t;
  generating : bool;
  prompt : jsstring;
  generatedImage : option jsstring;
  toast : option ToastMessage.t
}.

Definition setPlants (f : list UserPlant.t -> list UserPlant.t) (a : App)
    : App :=
  {| plants := f (plants a); selectedPlant := selectedPlant a;
     generating := generating a; prompt := prompt a;
     generatedImage := generatedImage a; toast := toast a |}.

Definition setSelectedPlant (p : option UserPlant.t) (a : App) : App :=
  {| plants := plants a; selectedPlant := p;
     generating := generating a; prompt := prompt a;
     generatedImage := generatedImage a; toast := toast a |}.

Definition setGenerating (b : bool) (a : App) : App :=
  {| plants := plants a; selectedPlant := selectedPlant a;
     generating := b; prompt := prompt a;
     generatedImage := generatedImage a; toast := toast a |}.

Definition setGeneratedImage (i : option jsstring) (a : App) : App :=
  {| plants := plants a; selectedPlant := selectedPlant a;
     generating := generating a; prompt := prompt a;
     generatedImage := i; toast := toast a |}.

(** [showToast]; the timer that clears the toast later is not modelled. *)
Definition showToast (type : ToastMessage.type_t) (text : jsstring) (a : App)
    : App :=
  {| plants := plants a; selectedPlant := selectedPlant a;
     generating := generating a; prompt := prompt a;
     generatedImage := generatedImage a;
     toast := Some (ToastMessage.mk type text) |}.

(** What the generator view adds to the text the user typed. *)
Definition CALLER_STYLE : jsstring :=
  js " . Photorealistic, high quality, botanical photography style.".

Definition handleGenerateImage (m : AiModule) (w : World) (a : App)
    : Eff (list Event) App :=
  if negb (truthy_string (trim (prompt a))) then ret a
  else
    let a := setGeneratedImage None (setGenerating true a) in
    let* a :=
      try_catch
        (let* base64 := generatePlantImage m w (prompt a ++ CALLER_STYLE) in
         ret (setGeneratedImage (Some base64) a))
        (fun _ =>
           ret (showToast ToastMessage.error
                  (js "No se pudo generar la imagen. Intenta de nuevo.") a)) in
    ret (setGenerating false a).

(** The text of the toast of success, with the two code units, U+221A and
    U+00B1, that the file holds between [Nota a] and [adida]. *)
Definition NOTE_ADDED : jsstring :=
  js "Nota a" ++ [8730%N; 177%N] ++ js "adida".

Definition handleAddNote (clock : Clock) (text : jsstring) (a : App)
    : Eff Storage App :=
  match selectedPlant a with
  | None => ret a
  | Some selected =>
      if negb (truthy_string (trim text)) then ret a
      else
        let* updated := addNoteToPlant clock (UserPlant.id selected) text in
        match updated with
        | Some updated =>
            ret (showToast ToastMessage.success NOTE_ADDED
                   (setSelectedPlant (Some updated)
                      (setPlants
                         (fun prev =>
                            (fun p => if id_is (UserPlant.id updated) p
                                      then updated else p) <$> prev)
                         a)))
        | None => ret a
        end
  end.

(** ** Reading the model

    The collection a store state holds, as [getPlants] reads it. *)
Definition entries (st : Storage) : list UserPlant.t :=
  match getPlants st with
  | (Return l, _) => l
  | (Throw _, _) => []
  end.

(** The state [localStorage.setItem(STORAGE_KEY, JSON.stringify(l))]
    leaves behind when the write is accepted. *)
Definition written (l : list UserPlant.t) (st : Storage) : Storage :=
  {| access := Granted;
     items := <[STORAGE_KEY := JSON_stringify l]> (items st) |}.

(** The entry a call on [plantId] works on: the first one with that id. *)
Definition target (plantId : jsstring) (st : Storage)
    : option (nat * UserPlant.t) :=
  match findIndex (id_is plantId) (entries st) with
  | Some index => pair index <$> entries st !! index
  | None => None
  end.

(** What the two mutating calls make of their target. *)
Definition toggled (p : UserPlant.t) : UserPlant.t :=
  UserPlant.set_isFavorite (negb (UserPlant.isFavorite p)) p.

Definition noted (clock : Clock) (noteText : jsstring) (p : UserPlant.t)
    : UserPlant.t :=
  UserPlant.set_notes
    (PlantNote.mk (Date_now_toString clock) (Date_toISOString clock) noteText
       :: notes_or_empty p) p.

(** The backend a step of a call reaches, and the prompt it carries to
    an image service. *)
Inductive Backend : Type := OpenAIBackend | GeminiBackend.

Definition backend_of (e : Event) : option Backend :=
  match e with
  | chat_completions _ | images_generations _ => Some OpenAIBackend
  | models_generateContent _ => Some GeminiBackend
  | console_log _ | console_error _ _ => None
  end.

Definition backends_used (trace : list Event) : list Backend :=
  omap backend_of trace.

Definition prompt_of (e : Event) : option jsstring :=
  match e with
  | images_generations request => Some (OpenAI.images_prompt request)
  | models_generateContent request =>
      match Gemini.contents request with
      | Gemini.TextPart text => Some text
      | Gemini.InlineImage _ _ => None
      end
  | _ => None
  end.

Definition dispatched_prompts (trace : list Event) : list jsstring :=
  omap prompt_of trace.

(** The backend the test [if (OPENAI_API_KEY)] picks for a value of the
    credential. *)
Definition selected (key : option jsstring) : Backend :=
  if truthy key then OpenAIBackend else GeminiBackend.

(** A running process: its environment, which can be assigned to, and the
    module [services/ai.ts] as it was loaded at the start. *)
Record Process : Type := {
  process_env : Env;
  services_ai : AiModule
}.

Definition start (env : Env) : Process :=
  {| process_env := env; services_ai := load env |}.

Definition set_env (p : Process) (env : Env) : Process :=
  {| process_env := env; services_ai := services_ai p |}.

(** The value [JSON.parse] gives for the reply to an identification, with
    either backend. *)
Inductive parsed_reply (m : AiModule) (w : World) (base64Image : jsstring)
    : JSON -> Prop :=
  | parsed_openai data choice rest content :
      truthy (OPENAI_API_KEY m) = true ->
      fetch_chat_completions w (chat_request m base64Image)
      = Return (HttpOk (Return data)) ->
      OpenAI.choices data = choice :: rest ->
      OpenAI.content (OpenAI.message choice) = JsonOf content ->
      parsed_reply m w base64Image content
  | parsed_gemini response content :
      truthy (OPENAI_API_KEY m) = false ->
      generateContent w
        (identify_request m (strip_data_url_prefix base64Image))
      = Return response ->
      Gemini.text response = Some (JsonOf content) ->
      parsed_reply m w base64Image content.

(** A property of a value, [undefined] where reading it would throw. *)
Definition property (v : JSON) (key : jsstring) : option JSON :=
  match get v key with
  | Return x => x
  | Throw _ => None
  end.

Definition is_string (x : option JSON) : bool :=
  match x with
  | Some (JString _) => true
  | _ => false
  end.

Definition is_one_of (values : list jsstring) (x : option JSON) : bool :=
  match x with
  | Some (JString s) => bool_decide (s ∈ values)
  | _ => false
  end.

Definition is_string_array (x : option JSON) : bool :=
  match x with
  | Some (JArray elements) => forallb (fun e => is_string (Some e)) elements
  | _ => false
  end.

(** The shape [types.ts] declares for [PlantAnalysis]: an object with the
    nine fields, each of its declared type. *)
Definition is_PlantAnalysis (v : JSON) : bool :=
  match v with
  | JObject _ =>
      is_string (property v (js "commonName"))
      && is_string (property v (js "scientificName"))
      && is_string (property v (js "description"))
      && is_one_of [js "low"; js "medium"; js "high"]
           (property v (js "lightRequirement"))
      && is_one_of [js "low"; js "medium"; js "high"]
           (property v (js "wateringRequirement"))
      && is_string (property v (js "temperatureRange"))
      && is_one_of [js "toxic"; js "safe"; js "unknown"]
           (property v (js "toxicity"))
      && is_one_of [js "easy"; js "medium"; js "hard"]
           (property v (js "difficulty"))
      && is_string_array (property v (js "funFacts"))
  | _ => false
  end.

(** Steps after the request of a call: none, or the line the [catch]
    branch writes on the console. *)
Definition console_only (extra : list Event) : Prop :=
  extra = [] \/ exists label e, extra = [console_error label e].

(** ** Sample data *)

Module Sample.
Definition monstera : PlantAnalysis.t :=
  PlantAnalysis.mk (js "Costilla de Adan") (js "Monstera deliciosa")
    (js "Planta tropical de hojas grandes.") Level.medium Level.medium
    (js "18-27 C") Toxicity.toxic Difficulty.easy
    [js "Sus hojas se perforan al crecer."; js "Da fruto comestible."].

Definition watered : PlantNote.t :=
  PlantNote.mk (js "1700000000500") (js "2023-11-14T22:13:20.500Z")
    (js "Watered today").

(** Two entries saved with the same id, and a third one. *)
Definition e1 : UserPlant.t :=
  UserPlant.mk monstera (js "1") (js "data:image/png;base64,AAAA")
    (js "2023-11-14T22:13:20.000Z") false (Some [watered]).

Definition e1_older : UserPlant.t :=
  UserPlant.mk monstera (js "1") (js "data:image/png;base64,BBBB")
    (js "2023-11-13T10:00:00.000Z") true None.

Definition e2 : UserPlant.t :=
  UserPlant.mk monstera (js "2") (js "data:image/jpeg;base64,CCCC")
    (js "2023-11-12T09:30:00.000Z") false (Some []).

Definition other_key : jsstring := js "theme".

Definition store : Storage :=
  {| access := Granted;
     items := {[ STORAGE_KEY := JsonOf [e2; e1; e1_older];
                 other_key := NotJson (js "dark") ]} |}.

Definition clock : Clock :=
  {| Date_now_toString := js "1700000100000";
     Date_toISOString := js "2023-11-14T22:15:00.000Z" |}.

Definition app : App :=
  {| plants := [e2; e1; e1_older]; selectedPlant := Some e1;
     generating := false; prompt := js "a red rose"; generatedImage := None;
     toast := None |}.

Definition gemini_only : Env :=
  {| API_KEY_OPENAI := None; API_KEY := Some (js "g-key") |}.

Definition with_openai : Env :=
  {| API_KEY_OPENAI := Some (js "sk-key"); API_KEY := Some (js "g-key") |}.

(** Replies: no plant seen, by either name; and an object that has one
    field of a [PlantAnalysis] and one that is not in it. *)
Definition unknown_common : JSON :=
  JObject [(js "commonName", JString (js "Unknown"));
           (js "scientificName", JString (js "Rosa canina"))].

Definition unknown_scientific : JSON :=
  JObject [(js "commonName", JString (js "Rosa"));
           (js "scientificName", JString (js "Unknown"))].

Definition partial : JSON :=
  JObject [(js "commonName", JString (js "Rosa"));
           (js "colour", JString (js "red"))].

(** A network on which each service answers with success: the chat and
    the Gemini identification with [content], the image services with
    one PNG. *)
Definition answering (content : JSON) : World :=
  {| fetch_chat_completions := fun _ =>
       Return (HttpOk (Return
         {| OpenAI.choices :=
              [{| OpenAI.message := {| OpenAI.content := JsonOf content |} |}] |}));
     fetch_images_generations := fun _ =>
       Return (HttpOk (Return
         {| OpenAI.data := [{| OpenAI.b64_json := Some (js "iVBORw0KGgo") |}] |}));
     generateContent := fun _ =>
       Return
         {| Gemini.text := Some (JsonOf content);
            Gemini.candidates :=
              Some [{| Gemini.content :=
                         {| Gemini.parts :=
                              Some [{| Gemini.inlineData := None |};
                                    {| Gemini.inlineData :=
                                         Some {| Gemini.mimeType := Some (js "image/png");
                                                 Gemini.data := Some (js "iVBORw0KGgo") |} |}] |} |}] |} |}.
End Sample.

(** ** App.tsx: the other handlers that call the store and the provider

    The views, the state of the camera view, and the whole state of the
    component. The analysis result is kept at the type the code that reads
    it relies on: the parsed reply where [runIdentification] stores it, a
    [PlantAnalysis] where [saveCurrentPlant] spreads it into an entry. *)

Inductive ViewState : Type :=
  HOME | CAMERA | DIARY | FAVORITES | DETAILS | GENERATOR.

Module Camera.
Record t (A : Type) : Type := mk {
  analyzing : bool;
  capturedImage : option jsstring;
  analysisResult : option A
}.
Arguments mk {A} analyzing capturedImage analysisResult.
Arguments analyzing {A} t.
Arguments capturedImage {A} t.
Arguments analysisResult {A} t.
End Camera.

Record Ui (A : Type) : Type := {
  app : App;
  camera : Camera.t A;
  view : ViewState
}.
Arguments Build_Ui {A} app camera view.
Arguments app {A} u.
Arguments camera {A} u.
Arguments view {A} u.

Definition handleToggleFavorite (plantId : jsstring) (a : App)
    : Eff Storage App :=
  let* updated := toggleFavoritePlant plantId in
  match updated with
  | Some updated =>
      let a :=
        setPlants
          (fun prev => (fun p => if id_is plantId p then updated else p) <$> prev)
          a in
      ret (match selectedPlant a with
           | Some selected =>
               if id_is plantId selected
               then setSelectedPlant (Some updated) a
               else a
           | None => a
           end)
  | None => ret a
  end.

(** The handler of the delete button of [renderDetails], which is drawn
    only when a plant is selected; [confirmed] is the answer to
    [confirm]. The selection itself is left as it is. *)
Definition renderDetails_onDelete {A : Type} (confirmed : bool) (u : Ui A)
    : Eff Storage (Ui A) :=
  match selectedPlant (app u) with
  | None => ret u
  | Some selected =>
      if confirmed
      then
        deletePlant (UserPlant.id selected) ;;
        ret {| app :=
                 showToast ToastMessage.info (js "Planta eliminada")
                   (setPlants
                      (fun prev =>
                         filter (fun p => UserPlant.id p ≠ UserPlant.id selected)
                           prev)
                      (app u));
               camera := camera u;
               view := HOME |}
      else ret u
  end.

(** The text of the toast of a saved plant, with the two code units,
    U+00AC and U+00B0, that the file holds before [Planta]. *)
Definition PLANT_SAVED : jsstring :=
  [172%N; 176%N] ++ js "Planta guardada en tu diario!".

Definition saveCurrentPlant (clock : Clock) (u : Ui PlantAnalysis.t)
    : Eff Storage (Ui PlantAnalysis.t) :=
  match Camera.analysisResult (camera u), Camera.capturedImage (camera u) with
  | None, _ | _, None => ret u
  | Some analysisResult, Some capturedImage =>
      if negb (truthy_string capturedImage) then ret u
      else
        let newPlant :=
          UserPlant.mk analysisResult (Date_now_toString clock) capturedImage
            (Date_toISOString clock) false (Some []) in
        savePlant newPlant ;;
        ret {| app :=
                 setSelectedPlant (Some newPlant)
                   (showToast ToastMessage.success PLANT_SAVED
                      (setPlants (fun prev => newPlant :: prev) (app u)));
               camera :=
                 Camera.mk (Camera.analyzing (camera u)) None None;
               view := DETAILS |}
  end.

(** [err.message]; the message of a [DOMException], which the model does
    not carry, is the one [dom_message] gives for its name. *)
Definition message_of (dom_message : jsstring -> jsstring) (err : JsError)
    : jsstring :=
  match err with
  | Error message | TypeError message | SyntaxError message => message
  | DOMException name => dom_message name
  end.

Definition runIdentification (m : AiModule) (w : World)
    (dom_message : jsstring -> jsstring) (base64Image : jsstring)
    (u : Ui JSON) : Eff (list Event) (Ui JSON) :=
  let setAnalyzing b (u : Ui JSON) :=
    {| app := app u;
       camera := Camera.mk b (Camera.capturedImage (camera u))
                   (Camera.analysisResult (camera u));
       view := view u |} in
  let u := setAnalyzing true u in
  let* u :=
    try_catch
      (let* data := identifyPlant m w base64Image in
       ret {| app := app u;
              camera := Camera.mk (Camera.analyzing (camera u))
                          (Camera.capturedImage (camera u)) (Some data);
              view := view u |})
      (fun err =>
         let text :=
           if truthy_string (message_of dom_message err)
           then message_of dom_message err
           else js "Error identificando la planta." in
         ret {| app := showToast ToastMessage.error text (app u);
                camera := Camera.mk (Camera.analyzing (camera u)) None
                            (Camera.analysisResult (camera u));
                view := view u |}) in
  ret (setAnalyzing false u).

(** ** [getPlants] over whatever the storage holds

    The same function with the result at the type [any] that [JSON.parse]
    gives it: a stored text that is JSON may be the text of any value
    [V], an array of entries or not, and [empty] is what the literal [[]]
    of the source is at that type. [Storage] above is the case where the
    stored JSON is an array of entries. *)

Record AnyStorage (V : Type) : Type := {
  any_access : Access;
  any_items : gmap jsstring (JsonText V)
}.
Arguments Build_AnyStorage {V} any_access any_items.
Arguments any_access {V} a.
Arguments any_items {V} a.

Definition getItem_any {V : Type} (key : jsstring)
    : Eff (AnyStorage V) (option (JsonText V)) :=
  fun st =>
    match any_access st with
    | Denied => (Throw (DOMException (js "SecurityError")), st)
    | _ => (Return (any_items st !! key), st)
    end.

Definition getPlants_any {V : Type} (empty : V) : Eff (AnyStorage V) V :=
  try_catch
    (let* data := getItem_any STORAGE_KEY in
     match data with
     | Some text =>
         if truthy_text text then lift (JSON_parse text) else ret empty
     | None => ret empty
     end)
    (fun _ => ret empty).

(** A storage of entry arrays, seen as a storage of anything. *)
Definition any_of (st : Storage) : AnyStorage (list UserPlant.t) :=
  {| any_access := access st; any_items := items st |}.

(** ** Reading the model, continued *)

(** The ids of a collection, in its order. *)
Definition ids (l : list UserPlant.t) : list jsstring := UserPlant.id <$> l.

(** The store after the first entry of an id has been replaced by [f] of
    it, or the store as it is when the id does not occur. *)
Definition modify (f : UserPlant.t -> UserPlant.t) (plantId : jsstring)
    (st : Storage) : Storage :=
  match target plantId st with
  | Some (i, p) => written (<[i := f p]> (entries st)) st
  | None => st
  end.

(** A part of a Gemini reply that carries an image: [part.inlineData &&
    part.inlineData.data]. *)
Definition has_payload (part : Gemini.Part) : bool :=
  match Gemini.inlineData part with
  | Some inlineData => truthy (Gemini.data inlineData)
  | None => false
  end.

(** The data URL made of a part. *)
Definition url_of (part : Gemini.Part) : jsstring :=
  match Gemini.inlineData part with
  | Some inlineData =>
      js "data:" ++ interpolate (Gemini.mimeType inlineData)
        ++ js ";base64," ++ interpolate (Gemini.data inlineData)
  | None => []
  end.

(** ** More sample data *)

Module Example.
(** A collection without two entries of one id, and its storage, also
    when it takes no write and when it cannot be reached. *)
Definition diary : list UserPlant.t := [Sample.e2; Sample.e1].

Definition store : Storage :=
  {| access := Granted; items := {[ STORAGE_KEY := JsonOf diary ]} |}.

Definition full : Storage :=
  {| access := QuotaExceeded; items := {[ STORAGE_KEY := JsonOf diary ]} |}.

Definition locked : Storage :=
  {| access := Denied; items := {[ STORAGE_KEY := JsonOf diary ]} |}.

Definition fresh : UserPlant.t :=
  UserPlant.mk Sample.monstera (js "3") (js "data:image/png;base64,DDDD")
    (js "2023-11-15T08:00:00.000Z") false (Some []).

Definition in_sync : App :=
  {| plants := diary; selectedPlant := Some Sample.e1; generating := false;
     prompt := js "a red rose"; generatedImage := None; toast := None |}.

Definition details {A : Type} : Ui A :=
  {| app := in_sync; camera := Camera.mk false None None; view := DETAILS |}.

Definition captured : Ui PlantAnalysis.t :=
  {| app := in_sync;
     camera := Camera.mk false (Some (js "data:image/png;base64,DDDD"))
                 (Some Sample.monstera);
     view := CAMERA |}.

Definition shooting : Ui JSON :=
  {| app := in_sync;
     camera := Camera.mk false (Some (js "data:image/png;base64,DDDD")) None;
     view := CAMERA |}.

Definition rose : JSON :=
  JObject [(js "commonName", JString (js "Rosa"));
           (js "scientificName", JString (js "Rosa canina"))].

(** A network on which OpenAI answers 401 with a message, then with none,
    and Gemini answers with text parts only. *)
Definition refusing (body : ErrorBody) : World :=
  {| fetch_chat_completions := fun _ =>
       Return (HttpNotOk (js "Unauthorized") (Return body));
     fetch_images_generations := fun _ =>
       Return (HttpNotOk (js "Unauthorized") (Return body));
     generateContent := fun _ =>
       Return
         {| Gemini.text := None;
            Gemini.candidates :=
              Some [{| Gemini.content :=
                         {| Gemini.parts :=
                              Some [{| Gemini.inlineData := None |};
                                    {| Gemini.inlineData :=
                                         Some {| Gemini.mimeType := Some (js "image/png");
                                                 Gemini.data := Some [] |} |}] |} |}] |} |}.

Definition invalid_key : ErrorBody :=
  {| error := Some {| message := Some (js "Incorrect API key provided") |} |}.

Definition no_message : ErrorBody := {| error := None |}.

Definition dom_message (name : jsstring) : jsstring :=
  js "The operation failed: " ++ name.



(** Storages whose text under the key is JSON but no array of entries,
    is not JSON, or is missing. *)
Definition holding (v : JSON) : AnyStorage JSON :=
  {| any_access := Granted; any_items := {[ STORAGE_KEY := JsonOf v ]} |}.

Definition garbled : AnyStorage JSON :=
  {| any_access := Granted;
     any_items := {[ STORAGE_KEY := NotJson (js "[{") ]} |}.

Definition cleared : AnyStorage JSON :=
  {| any_access := Granted; any_items := ∅ |}.

Definition unreachable : AnyStorage JSON :=
  {| any_access := Denied; any_items := {[ STORAGE_KEY := JsonOf JNull ]} |}.
End Example.

(** Closes the case of a [catch] branch that logs and throws again. *)
Ltac caught :=
  eexists; rewrite <- app_assoc; split; [reflexivity | right; eauto].

(** * Properties of the store *)

Section store_facts.
Implicit Types (st : Storage) (l : list UserPlant.t) (p : UserPlant.t).

Lemma getPlants_entries st : getPlants st = (Return (entries st), st).
Proof.
  unfold entries, getPlants, try_catch, bind, getItem.
  destruct (access st); simpl; try reflexivity;
    destruct (items st !! STORAGE_KEY) as [[s|l]|]; simpl; try reflexivity;
    destruct (truthy_string s); reflexivity.
Qed.

Lemma entries_written l st : entries (written l st) = l.
Proof.
  unfold entries, getPlants, try_catch, bind, getItem, written. simpl.
  rewrite lookup_insert_eq. reflexivity.
Qed.

Lemma setItem_granted st l :
  access st = Granted ->
  setItem STORAGE_KEY (JSON_stringify l) st = (Return tt, written l st).
Proof. intros Hacc. unfold setItem. rewrite Hacc. reflexivity. Qed.

Lemma setItem_returns st key value u st' :
  setItem key value st = (Return u, st') -> access st = Granted.
Proof. unfold setItem. destruct (access st); congruence. Qed.

Lemma entries_denied st : access st = Denied -> entries st = [].
Proof.
  intros Hacc. unfold entries, getPlants, try_catch, bind, getItem.
  rewrite Hacc. reflexivity.
Qed.

(** A store that holds an entry holds the JSON text of its collection. *)
Lemma entries_stored st p i :
  entries st !! i = Some p ->
  items st !! STORAGE_KEY = Some (JsonOf (entries st)).
Proof.
  unfold entries, getPlants, try_catch, bind, getItem.
  destruct (access st); simpl;
    destruct (items st !! STORAGE_KEY) as [[s|l]|]; simpl;
    try destruct (truthy_string s); simpl; try (intros H; discriminate H);
    reflexivity.
Qed.

Lemma written_entries st p i :
  access st = Granted -> entries st !! i = Some p ->
  written (entries st) st = st.
Proof.
  intros Hacc Hp. unfold written, JSON_stringify.
  rewrite (insert_id _ _ _ (entries_stored _ _ _ Hp)).
  destruct st as [a its]. simpl in *. congruence.
Qed.

Lemma written_written l l' st : written l (written l' st) = written l st.
Proof. unfold written. simpl. rewrite insert_insert_eq. reflexivity. Qed.

Lemma findIndex_Some {A : Type} (f : A -> bool) (xs : list A) i :
  findIndex f xs = Some i ->
  exists x, xs !! i = Some x /\ f x = true
    /\ forall j y, j < i -> xs !! j = Some y -> f y = false.
Proof.
  revert i. induction xs as [|x xs IH]; intros i; simpl; [discriminate|].
  destruct (f x) eqn:Hfx.
  - intros [= <-]. exists x. repeat split; [assumption|]. intros j y Hj. lia.
  - destruct (findIndex f xs) as [k|]; [|discriminate].
    intros [= <-]. destruct (IH k eq_refl) as (z & Hz & Hfz & Hbefore).
    exists z. repeat split; [assumption..|].
    intros [|j] y Hj; simpl.
    + intros [= <-]. assumption.
    + apply Hbefore. lia.
Qed.

Lemma findIndex_None {A : Type} (f : A -> bool) (xs : list A) :
  findIndex f xs = None <-> forall x, x ∈ xs -> f x = false.
Proof.
  induction xs as [|x xs IH]; simpl.
  - split; [|reflexivity]. intros _ y Hy. inversion Hy.
  - destruct (f x) eqn:Hfx.
    + split; [discriminate|]. intros H.
      rewrite (H x) in Hfx; [discriminate | left].
    + destruct (findIndex f xs) as [k|]; simpl.
      * split; [discriminate|]. intros H.
        destruct IH as [_ IH]. discriminate IH.
        intros y Hy. apply H. right. assumption.
      * split; [|reflexivity]. intros _ y Hy.
        apply elem_of_cons in Hy as [-> | Hy]; [assumption|].
        apply IH; [reflexivity | assumption].
Qed.

Lemma id_is_true plantId p : id_is plantId p = true <-> UserPlant.id p = plantId.
Proof. unfold id_is. apply bool_decide_eq_true. Qed.

Lemma id_is_false plantId p : id_is plantId p = false <-> UserPlant.id p ≠ plantId.
Proof. unfold id_is. apply bool_decide_eq_false. Qed.

(** An id that occurs in the collection has a target, and conversely. *)
Lemma target_present plantId st :
  (exists p, p ∈ entries st /\ UserPlant.id p = plantId) ->
  exists i p, target plantId st = Some (i, p).
Proof.
  intros (q & Hin & Hid). unfold target.
  destruct (findIndex (id_is plantId) (entries st)) as [i|] eqn:Hfind.
  - destruct (findIndex_Some _ _ _ Hfind) as (x & Hx & _).
    exists i, x. rewrite Hx. reflexivity.
  - rewrite findIndex_None in Hfind. apply Hfind in Hin.
    apply id_is_false in Hin. contradiction.
Qed.

Lemma target_absent plantId st :
  (forall p, p ∈ entries st -> UserPlant.id p ≠ plantId) ->
  findIndex (id_is plantId) (entries st) = None.
Proof.
  intros Habs. apply findIndex_None. intros x Hx.
  apply id_is_false. apply Habs. assumption.
Qed.

Lemma target_Some plantId st i p :
  target plantId st = Some (i, p) ->
  findIndex (id_is plantId) (entries st) = Some i
  /\ entries st !! i = Some p /\ UserPlant.id p = plantId
  /\ forall j q, j < i -> entries st !! j = Some q -> UserPlant.id q ≠ plantId.
Proof.
  unfold target.
  destruct (findIndex (id_is plantId) (entries st)) as [k|] eqn:Hfind;
    [|discriminate].
  destruct (findIndex_Some _ _ _ Hfind) as (x & Hx & Hfx & Hbefore).
  rewrite Hx. simpl. intros [= <- <-]. repeat split; try assumption.
  - apply id_is_true. assumption.
  - intros j q Hj Hq. apply id_is_false. eapply Hbefore; eassumption.
Qed.

Lemma toggleFavoritePlant_target plantId st i p :
  access st = Granted -> target plantId st = Some (i, p) ->
  toggleFavoritePlant plantId st
  = (Return (Some (toggled p)), written (<[i := toggled p]> (entries st)) st).
Proof.
  intros Hacc Ht. destruct (target_Some _ _ _ _ Ht) as (Hfind & Hp & _).
  unfold toggleFavoritePlant, bind. rewrite getPlants_entries, Hfind.
  unfold at_index. rewrite Hp. unfold ret at 1.
  rewrite (setItem_granted _ _ Hacc). unfold ret.
  rewrite list_lookup_insert_eq; [reflexivity|].
  eapply lookup_lt_Some. eassumption.
Qed.

Lemma addNoteToPlant_target clock plantId noteText st i p :
  access st = Granted -> target plantId st = Some (i, p) ->
  addNoteToPlant clock plantId noteText st
  = (Return (Some (noted clock noteText p)),
     written (<[i := noted clock noteText p]> (entries st)) st).
Proof.
  intros Hacc Ht. destruct (target_Some _ _ _ _ Ht) as (Hfind & Hp & _).
  unfold addNoteToPlant, bind. rewrite getPlants_entries, Hfind.
  unfold at_index. rewrite Hp. unfold ret at 1.
  rewrite (setItem_granted _ _ Hacc). reflexivity.
Qed.

Lemma toggleFavoritePlant_absent plantId st :
  findIndex (id_is plantId) (entries st) = None ->
  toggleFavoritePlant plantId st = (Return None, st).
Proof.
  intros Hfind. unfold toggleFavoritePlant, bind.
  rewrite getPlants_entries, Hfind. reflexivity.
Qed.

Lemma addNoteToPlant_absent clock plantId noteText st :
  findIndex (id_is plantId) (entries st) = None ->
  addNoteToPlant clock plantId noteText st = (Return None, st).
Proof.
  intros Hfind. unfold addNoteToPlant, bind.
  rewrite getPlants_entries, Hfind. reflexivity.
Qed.

(** The target of an id stays where it is when the entry at its index is
    replaced by one of the same id. *)
Lemma target_written plantId st i p p' :
  target plantId st = Some (i, p) -> UserPlant.id p' = plantId ->
  target plantId (written (<[i := p']> (entries st)) st) = Some (i, p').
Proof.
  intros Ht Hid'. destruct (target_Some _ _ _ _ Ht) as (_ & Hp & _ & Hbefore).
  pose proof (lookup_lt_Some _ _ _ Hp) as Hlt.
  unfold target. rewrite entries_written.
  destruct (findIndex (id_is plantId) (<[i := p']> (entries st)))
    as [k|] eqn:Hfind.
  - destruct (findIndex_Some _ _ _ Hfind) as (x & Hx & Hfx & Hfirst).
    destruct (Nat.lt_trichotomy k i) as [Hlt'|[->|Hgt]].
    + rewrite list_lookup_insert_ne in Hx by lia.
      apply id_is_true in Hfx. destruct (Hbefore k x Hlt' Hx Hfx).
    + rewrite list_lookup_insert_eq by assumption. reflexivity.
    + assert (Hfalse : id_is plantId p' = false).
      { apply (Hfirst i p' Hgt). apply list_lookup_insert_eq. assumption. }
      apply id_is_false in Hfalse. contradiction.
  - rewrite findIndex_None in Hfind.
    assert (Hfalse : id_is plantId p' = false).
    { apply Hfind. apply list_elem_of_lookup. exists i.
      apply list_lookup_insert_eq. assumption. }
    apply id_is_false in Hfalse. contradiction.
Qed.

Lemma toggled_toggled p : toggled (toggled p) = p.
Proof.
  destruct p as [a i im d f n]. unfold toggled, UserPlant.set_isFavorite.
  simpl. rewrite negb_involutive. reflexivity.
Qed.
End store_facts.

(** C6. After [savePlant e] has returned, [getPlants] gives [e] followed
    by the collection as it was, in its order, whether or not an entry
    with the id of [e] was there already; and [savePlant] does return on
    every storage that accepts the write. *)
Theorem C6_savePlant_prepends (st : Storage) (e : UserPlant.t) :
  (forall st', savePlant e st = (Return tt, st') ->
     getPlants st' = (Return (e :: entries st), st'))
  /\ (access st = Granted -> exists st', savePlant e st = (Return tt, st')).
Proof.
  unfold savePlant, bind. rewrite getPlants_entries. split.
  - intros st' Hsave. pose proof (setItem_returns _ _ _ _ _ Hsave) as Hacc.
    rewrite (setItem_granted _ _ Hacc) in Hsave. injection Hsave as <-.
    rewrite getPlants_entries, entries_written. reflexivity.
  - intros Hacc. rewrite (setItem_granted _ _ Hacc). eexists. reflexivity.
Qed.

Lemma C6_witness :
  exists st',
    savePlant Sample.e1 Sample.store = (Return tt, st')
    /\ getPlants st'
        = (Return [Sample.e1; Sample.e2; Sample.e1; Sample.e1_older], st').
Proof.
  destruct (C6_savePlant_prepends Sample.store Sample.e1) as [Hpost Hret].
  destruct (Hret eq_refl) as [st' Hsave]. exists st'. split; [exact Hsave|].
  apply (Hpost st' Hsave).
Defined.

(** The typed [getPlants] is [getPlants_any] on a storage of entry
    arrays. *)
Lemma getPlants_any_typed (st : Storage) :
  fst (getPlants st) = fst (getPlants_any [] (any_of st)).
Proof.
  unfold getPlants, getPlants_any, try_catch, bind, getItem, getItem_any.
  simpl. destruct (access st); simpl; try reflexivity;
    destruct (items st !! STORAGE_KEY) as [[s|l]|]; simpl; try reflexivity;
    destruct (truthy_string s); reflexivity.
Qed.

(** C9, as the code has it. [getPlants] returns on every storage and
    leaves it as it was. It gives the empty sequence when the storage
    cannot be read, when the key is absent, and when the stored text is
    empty or is not JSON; a stored text that is JSON comes back as the
    value it parses to, whatever that value is. *)
Theorem C9_getPlants_recovers_or_returns_parsed {V : Type} (empty : V)
    (st : AnyStorage V) :
  (exists v, getPlants_any empty st = (Return v, st))
  /\ (any_access st = Denied -> getPlants_any empty st = (Return empty, st))
  /\ (any_items st !! STORAGE_KEY = None ->
      getPlants_any empty st = (Return empty, st))
  /\ (forall s, any_items st !! STORAGE_KEY = Some (NotJson s) ->
        getPlants_any empty st = (Return empty, st))
  /\ (forall v, any_access st ≠ Denied ->
        any_items st !! STORAGE_KEY = Some (JsonOf v) ->
        getPlants_any empty st = (Return v, st)).
Proof.
  unfold getPlants_any, try_catch, bind, getItem_any.
  split; [|split; [|split; [|split]]].
  - destruct (any_access st); simpl; try (eexists; reflexivity);
      destruct (any_items st !! STORAGE_KEY) as [[s|v]|]; simpl;
      try (eexists; reflexivity);
      destruct (truthy_string s); eexists; reflexivity.
  - intros ->. reflexivity.
  - intros ->. destruct (any_access st); reflexivity.
  - intros s ->. destruct (any_access st); simpl;
      destruct (truthy_string s); reflexivity.
  - intros v Hacc ->. destruct (any_access st); [reflexivity.. |].
    contradiction.
Qed.

Lemma C9_recovery_witness :
  getPlants_any (JArray []) Example.unreachable
  = (Return (JArray []), Example.unreachable)
  /\ getPlants_any (JArray []) Example.cleared
     = (Return (JArray []), Example.cleared)
  /\ getPlants_any (JArray []) Example.garbled
     = (Return (JArray []), Example.garbled)
  /\ getPlants_any (JArray []) (Example.holding (JArray [JNull]))
     = (Return (JArray [JNull]), Example.holding (JArray [JNull])).
Proof.
  destruct (C9_getPlants_recovers_or_returns_parsed (JArray [])
              Example.unreachable) as (_ & Hdenied & _).
  destruct (C9_getPlants_recovers_or_returns_parsed (JArray [])
              Example.cleared) as (_ & _ & Habsent & _).
  destruct (C9_getPlants_recovers_or_returns_parsed (JArray [])
              Example.garbled) as (_ & _ & _ & Hgarbled & _).
  destruct (C9_getPlants_recovers_or_returns_parsed (JArray [])
              (Example.holding (JArray [JNull]))) as (_ & _ & _ & _ & Hparsed).
  split; [apply Hdenied; reflexivity|].
  split; [apply Habsent; reflexivity|].
  split; [apply (Hgarbled (js "[{")); reflexivity|].
  apply Hparsed; [discriminate | reflexivity].
Defined.

(** C9, as the claim has it, fails: a stored text that is JSON but no
    array, here [null], is not turned into the empty sequence;
    [getPlants] returns [null] itself. *)
Lemma C9_counterexample :
  getPlants_any (JArray []) (Example.holding JNull)
  = (Return JNull, Example.holding JNull)
  /\ JNull ≠ JArray [].
Proof. split; [reflexivity | discriminate]. Qed.

(** C7. On a storage that accepts the write and for an id that occurs in
    the collection, [toggleFavoritePlant] returns the first entry of that
    id with [isFavorite] negated and stores it in place; a second call
    returns the entry as it was at first and restores the store. For an
    id that does not occur, the call returns [null] and leaves the store
    as it was, whatever the storage. *)
Theorem C7_toggleFavorite_involution (st : Storage) (plantId : jsstring) :
  (access st = Granted ->
   (exists p, p ∈ entries st /\ UserPlant.id p = plantId) ->
   exists i p p' st',
     entries st !! i = Some p /\ UserPlant.id p = plantId
     /\ toggleFavoritePlant plantId st = (Return (Some p'), st')
     /\ UserPlant.isFavorite p' = negb (UserPlant.isFavorite p)
     /\ entries st' !! i = Some p'
     /\ toggleFavoritePlant plantId st' = (Return (Some p), st))
  /\ ((forall p, p ∈ entries st -> UserPlant.id p ≠ plantId) ->
      toggleFavoritePlant plantId st = (Return None, st)).
Proof.
  split.
  - intros Hacc Hpresent.
    destruct (target_present _ _ Hpresent) as (i & p & Ht).
    destruct (target_Some _ _ _ _ Ht) as (_ & Hp & Hid & _).
    pose proof (lookup_lt_Some _ _ _ Hp) as Hlt.
    exists i, p, (toggled p), (written (<[i := toggled p]> (entries st)) st).
    repeat split; try assumption.
    + apply toggleFavoritePlant_target; assumption.
    + rewrite entries_written. apply list_lookup_insert_eq. assumption.
    + assert (Ht' : target plantId
                      (written (<[i := toggled p]> (entries st)) st)
                    = Some (i, toggled p)).
      { apply (target_written _ _ _ p); [exact Ht | exact Hid]. }
      rewrite (toggleFavoritePlant_target plantId
                 (written (<[i := toggled p]> (entries st)) st) i (toggled p)
                 eq_refl Ht').
      rewrite toggled_toggled, entries_written, list_insert_insert_eq.
      rewrite (list_insert_id _ _ _ Hp), written_written.
      rewrite (written_entries _ _ _ Hacc Hp). reflexivity.
  - intros Habsent. apply toggleFavoritePlant_absent, target_absent.
    assumption.
Qed.

Lemma C7_witness :
  (exists i p p' st',
     entries Sample.store !! i = Some p /\ UserPlant.id p = js "1"
     /\ toggleFavoritePlant (js "1") Sample.store = (Return (Some p'), st')
     /\ UserPlant.isFavorite p' = negb (UserPlant.isFavorite p)
     /\ entries st' !! i = Some p'
     /\ toggleFavoritePlant (js "1") st' = (Return (Some p), Sample.store))
  /\ toggleFavoritePlant (js "3") Sample.store = (Return None, Sample.store).
Proof.
  destruct (C7_toggleFavorite_involution Sample.store (js "1")) as [H1 _].
  destruct (C7_toggleFavorite_involution Sample.store (js "3")) as [_ H3].
  split.
  - apply H1; [reflexivity|]. exists Sample.e1. split; [|reflexivity].
    vm_compute. apply list_elem_of_further, list_elem_of_here.
  - apply H3. intros p Hp. vm_compute in Hp.
    repeat (apply elem_of_cons in Hp as [-> | Hp]; [discriminate|]).
    inversion Hp.
Defined.

(** C8. On a storage that accepts the write, for an id that occurs in the
    collection and a non-empty text, [addNoteToPlant] returns the first
    entry of that id with one new note in front of the notes it had, which
    follow in their order; the new note is made of the two clock readings
    and the text, the entry has one note more, and the stored collection
    holds the entry so updated at the same index. *)
Theorem C8_addNote_prepends (clock : Clock) (st : Storage)
    (plantId noteText : jsstring) :
  access st = Granted ->
  (exists p, p ∈ entries st /\ UserPlant.id p = plantId) ->
  noteText ≠ [] ->
  exists i p p' st' note,
    entries st !! i = Some p /\ UserPlant.id p = plantId
    /\ addNoteToPlant clock plantId noteText st = (Return (Some p'), st')
    /\ entries st' !! i = Some p'
    /\ note = PlantNote.mk (Date_now_toString clock) (Date_toISOString clock)
                noteText
    /\ notes_or_empty p' = note :: notes_or_empty p
    /\ notes_or_empty p' !! 0 = Some note
    /\ PlantNote.text note = noteText
    /\ length (notes_or_empty p') = S (length (notes_or_empty p)).
Proof.
  intros Hacc Hpresent _.
  destruct (target_present _ _ Hpresent) as (i & p & Ht).
  destruct (target_Some _ _ _ _ Ht) as (_ & Hp & Hid & _).
  exists i, p, (noted clock noteText p),
    (written (<[i := noted clock noteText p]> (entries st)) st),
    (PlantNote.mk (Date_now_toString clock) (Date_toISOString clock) noteText).
  repeat split; try assumption.
  - apply addNoteToPlant_target; assumption.
  - rewrite entries_written. apply list_lookup_insert_eq.
    eapply lookup_lt_Some. eassumption.
Qed.

Lemma C8_witness :
  exists i p p' st' note,
    entries Sample.store !! i = Some p /\ UserPlant.id p = js "1"
    /\ addNoteToPlant Sample.clock (js "1") (js "Repotted") Sample.store
       = (Return (Some p'), st')
    /\ entries st' !! i = Some p'
    /\ note = PlantNote.mk (Date_now_toString Sample.clock)
                (Date_toISOString Sample.clock) (js "Repotted")
    /\ notes_or_empty p' = note :: notes_or_empty p
    /\ notes_or_empty p' !! 0 = Some note
    /\ PlantNote.text note = js "Repotted"
    /\ length (notes_or_empty p') = S (length (notes_or_empty p)).
Proof.
  apply (C8_addNote_prepends Sample.clock Sample.store (js "1") (js "Repotted")).
  - reflexivity.
  - exists Sample.e1. split; [|reflexivity].
    vm_compute. apply list_elem_of_further, list_elem_of_here.
  - discriminate.
Defined.

(** C10. On a storage that accepts the write and for an id that occurs in
    the collection, each of the two calls replaces the first entry of that
    id and nothing else: the collection keeps its length, every other
    index keeps its entry, every other key of the storage keeps its item,
    and the replaced entry differs from the old one in [isFavorite] alone
    for [toggleFavoritePlant], in [notes] alone for [addNoteToPlant]. *)
Theorem C10_mutations_frame (clock : Clock) (st : Storage)
    (plantId noteText : jsstring) :
  access st = Granted ->
  (exists p, p ∈ entries st /\ UserPlant.id p = plantId) ->
  exists i p,
    entries st !! i = Some p /\ UserPlant.id p = plantId
    /\ (exists p' st',
          toggleFavoritePlant plantId st = (Return (Some p'), st')
          /\ entries st' = <[i := p']> (entries st)
          /\ length (entries st') = length (entries st)
          /\ (forall j, j ≠ i -> entries st' !! j = entries st !! j)
          /\ (forall key, key ≠ STORAGE_KEY ->
                items st' !! key = items st !! key)
          /\ UserPlant.analysis p' = UserPlant.analysis p
          /\ UserPlant.id p' = UserPlant.id p
          /\ UserPlant.image p' = UserPlant.image p
          /\ UserPlant.dateAdded p' = UserPlant.dateAdded p
          /\ UserPlant.notes p' = UserPlant.notes p)
    /\ (exists p' st',
          addNoteToPlant clock plantId noteText st = (Return (Some p'), st')
          /\ entries st' = <[i := p']> (entries st)
          /\ length (entries st') = length (entries st)
          /\ (forall j, j ≠ i -> entries st' !! j = entries st !! j)
          /\ (forall key, key ≠ STORAGE_KEY ->
                items st' !! key = items st !! key)
          /\ UserPlant.analysis p' = UserPlant.analysis p
          /\ UserPlant.id p' = UserPlant.id p
          /\ UserPlant.image p' = UserPlant.image p
          /\ UserPlant.dateAdded p' = UserPlant.dateAdded p
          /\ UserPlant.isFavorite p' = UserPlant.isFavorite p).
Proof.
  intros Hacc Hpresent.
  destruct (target_present _ _ Hpresent) as (i & p & Ht).
  destruct (target_Some _ _ _ _ Ht) as (_ & Hp & Hid & _).
  assert (Hframe : forall p',
    entries (written (<[i := p']> (entries st)) st) = <[i := p']> (entries st)
    /\ length (entries (written (<[i := p']> (entries st)) st))
       = length (entries st)
    /\ (forall j, j ≠ i ->
          entries (written (<[i := p']> (entries st)) st) !! j
          = entries st !! j)
    /\ (forall key, key ≠ STORAGE_KEY ->
          items (written (<[i := p']> (entries st)) st) !! key
          = items st !! key)).
  { intros p'. rewrite entries_written. repeat split.
    - apply length_insert.
    - intros j Hj. apply list_lookup_insert_ne. congruence.
    - intros key Hkey. unfold written. simpl.
      apply lookup_insert_ne. congruence. }
  exists i, p. split; [assumption|]. split; [assumption|]. split.
  - exists (toggled p), (written (<[i := toggled p]> (entries st)) st).
    split; [apply toggleFavoritePlant_target; assumption|].
    destruct (Hframe (toggled p)) as (? & ? & ? & ?). repeat split; assumption.
  - exists (noted clock noteText p),
      (written (<[i := noted clock noteText p]> (entries st)) st).
    split; [apply addNoteToPlant_target; assumption|].
    destruct (Hframe (noted clock noteText p)) as (? & ? & ? & ?).
    repeat split; assumption.
Qed.

Lemma C10_witness :
  exists i p,
    entries Sample.store !! i = Some p /\ UserPlant.id p = js "1"
    /\ (exists p' st',
          toggleFavoritePlant (js "1") Sample.store = (Return (Some p'), st')
          /\ entries st' = <[i := p']> (entries Sample.store)
          /\ length (entries st') = length (entries Sample.store)
          /\ (forall j, j ≠ i -> entries st' !! j = entries Sample.store !! j)
          /\ (forall key, key ≠ STORAGE_KEY ->
                items st' !! key = items Sample.store !! key)
          /\ UserPlant.analysis p' = UserPlant.analysis p
          /\ UserPlant.id p' = UserPlant.id p
          /\ UserPlant.image p' = UserPlant.image p
          /\ UserPlant.dateAdded p' = UserPlant.dateAdded p
          /\ UserPlant.notes p' = UserPlant.notes p)
    /\ (exists p' st',
          addNoteToPlant Sample.clock (js "1") (js "Repotted") Sample.store
          = (Return (Some p'), st')
          /\ entries st' = <[i := p']> (entries Sample.store)
          /\ length (entries st') = length (entries Sample.store)
          /\ (forall j, j ≠ i -> entries st' !! j = entries Sample.store !! j)
          /\ (forall key, key ≠ STORAGE_KEY ->
                items st' !! key = items Sample.store !! key)
          /\ UserPlant.analysis p' = UserPlant.analysis p
          /\ UserPlant.id p' = UserPlant.id p
          /\ UserPlant.image p' = UserPlant.image p
          /\ UserPlant.dateAdded p' = UserPlant.dateAdded p
          /\ UserPlant.isFavorite p' = UserPlant.isFavorite p).
Proof.
  apply (C10_mutations_frame Sample.clock Sample.store (js "1") (js "Repotted")).
  - reflexivity.
  - exists Sample.e1. split; [|reflexivity].
    vm_compute. apply list_elem_of_further, list_elem_of_here.
Defined.

(** C2, as the code has it. The guard against an empty note is in the
    caller: [handleAddNote] returns at once when the trimmed text is
    empty, so that the store is not called, no note is made, and both the
    storage and the state of the component are as before. *)
Theorem C2_handleAddNote_rejects_blank (clock : Clock) (text : jsstring)
    (a : App) (st : Storage) :
  trim text = [] -> handleAddNote clock text a st = (Return a, st).
Proof.
  intros Hblank. unfold handleAddNote.
  destruct (selectedPlant a); [|reflexivity].
  rewrite Hblank. reflexivity.
Qed.

Lemma C2_witness :
  trim [32; 9; 10; 160]%N = []
  /\ handleAddNote Sample.clock [32; 9; 10; 160]%N Sample.app Sample.store
     = (Return Sample.app, Sample.store).
Proof.
  split; [reflexivity|].
  apply (C2_handleAddNote_rejects_blank Sample.clock [32; 9; 10; 160]%N).
  reflexivity.
Defined.

(** C2, as the claim has it, fails: [addNoteToPlant] does not look at the
    text. With the empty text it stores an empty note in front of the
    notes of the entry, and the stored collection changes. *)
Lemma C2_counterexample :
  trim (js "") = []
  /\ exists p' st',
       addNoteToPlant Sample.clock (js "1") (js "") Sample.store
       = (Return (Some p'), st')
       /\ notes_or_empty p'
          = [PlantNote.mk (js "1700000100000") (js "2023-11-14T22:15:00.000Z")
               (js "");
             Sample.watered]
       /\ notes_or_empty Sample.e1 = [Sample.watered]
       /\ entries st' = [Sample.e2; p'; Sample.e1_older]
       /\ entries Sample.store = [Sample.e2; Sample.e1; Sample.e1_older]
       /\ st' ≠ Sample.store.
Proof.
  split; [reflexivity|].
  eexists _, _. split; [vm_compute; reflexivity|].
  repeat split; try (vm_compute; reflexivity).
  intros Heq. apply (f_equal entries) in Heq. vm_compute in Heq.
  discriminate Heq.
Qed.

(** * Properties of the provider layer *)

Section provider_facts.
Variable m : AiModule.
Variable w : World.
Implicit Types (trace : list Event) (content : JSON).

Lemma strict_equals_true (x : option JSON) (s : jsstring) :
  strict_equals x s = true <-> x = Some (JString s).
Proof.
  unfold strict_equals. destruct x as [[]|]; try (split; discriminate).
  rewrite bool_decide_eq_true. split; congruence.
Qed.

Lemma strict_equals_false (x : option JSON) (s : jsstring) :
  strict_equals x s = false <-> x ≠ Some (JString s).
Proof.
  rewrite <- strict_equals_true. destruct (strict_equals x s); split;
    congruence.
Qed.

Lemma get_Return_not_null content key x :
  get content key = Return x -> forall key', exists y, get content key' = Return y.
Proof.
  destruct content; simpl; try discriminate; intros _ key'; eexists;
    reflexivity.
Qed.

(** The sentinel test throws on either name. *)
Lemma reject_unknown_throws content trace :
  get content (js "commonName") = Return (Some (JString (js "Unknown")))
  \/ get content (js "scientificName") = Return (Some (JString (js "Unknown"))) ->
  reject_unknown content trace = (Throw NOT_A_PLANT, trace).
Proof.
  unfold reject_unknown, bind, lift, throw.
  intros [Hc | Hs].
  - rewrite Hc. reflexivity.
  - destruct (get_Return_not_null _ _ _ Hs (js "commonName")) as [x Hx].
    rewrite Hx. destruct (strict_equals x (js "Unknown")); [reflexivity|].
    rewrite Hs. reflexivity.
Qed.

(** It returns nothing but the value it was given, and only when neither
    name is the sentinel. *)
Lemma reject_unknown_returns content trace pa trace' :
  reject_unknown content trace = (Return pa, trace') ->
  pa = content /\ trace' = trace
  /\ get content (js "commonName") ≠ Return (Some (JString (js "Unknown")))
  /\ get content (js "scientificName") ≠ Return (Some (JString (js "Unknown"))).
Proof.
  unfold reject_unknown, bind, lift, throw, ret.
  destruct (get content (js "commonName")) as [x|] eqn:Hx; [|discriminate].
  destruct (strict_equals x (js "Unknown")) eqn:Hcx; [discriminate|].
  destruct (get content (js "scientificName")) as [y|] eqn:Hy; [|discriminate].
  destruct (strict_equals y (js "Unknown")) eqn:Hcy; [discriminate|].
  intros [= <- <-]. apply strict_equals_false in Hcx, Hcy.
  repeat split; congruence.
Qed.

Lemma reject_unknown_passes content trace :
  content ≠ JNull ->
  get content (js "commonName") ≠ Return (Some (JString (js "Unknown"))) ->
  get content (js "scientificName") ≠ Return (Some (JString (js "Unknown"))) ->
  reject_unknown content trace = (Return content, trace).
Proof.
  intros Hnull Hc Hs. unfold reject_unknown, bind, lift, throw, ret.
  destruct (get content (js "commonName")) as [x|] eqn:Hx.
  - destruct (strict_equals x (js "Unknown")) eqn:Hcx.
    { apply strict_equals_true in Hcx. congruence. }
    destruct (get_Return_not_null _ _ _ Hx (js "scientificName")) as [y Hy].
    rewrite Hy in *. destruct (strict_equals y (js "Unknown")) eqn:Hcy.
    { apply strict_equals_true in Hcy. congruence. }
    reflexivity.
  - destruct content; simpl in Hx; congruence.
Qed.

(** What either identification returns has passed the sentinel test. *)
Lemma identifyWithOpenAI_returns base64Image trace pa trace' :
  identifyWithOpenAI m w base64Image trace = (Return pa, trace') ->
  exists trace0, reject_unknown pa trace0 = (Return pa, trace').
Proof.
  unfold identifyWithOpenAI.
  destruct (negb (truthy (OPENAI_API_KEY m))); [discriminate|].
  unfold bind, emit, lift, throw, first, ret.
  destruct (fetch_chat_completions w (chat_request m base64Image))
    as [[[data|]|statusText [err|]]|]; try discriminate.
  destruct (OpenAI.choices data) as [|choice rest]; [discriminate|].
  destruct (JSON_parse (OpenAI.content (OpenAI.message choice)))
    as [content|]; [|discriminate].
  intros Hr. destruct (reject_unknown_returns _ _ _ _ Hr) as (-> & _).
  eexists. exact Hr.
Qed.

Lemma identifyWithGemini_returns base64Image trace pa trace' :
  identifyWithGemini m w base64Image trace = (Return pa, trace') ->
  exists trace0, reject_unknown pa trace0 = (Return pa, trace').
Proof.
  unfold identifyWithGemini, try_catch, bind, emit, lift, throw, ret.
  destruct (generateContent w
              (identify_request m (strip_data_url_prefix base64Image)))
    as [response|]; [|discriminate].
  destruct (Gemini.text response) as [text|]; [|discriminate].
  destruct (negb (truthy_text text)); [discriminate|].
  destruct (JSON_parse text) as [data|]; [|discriminate].
  destruct (reject_unknown data _) as [[pa0|] trace0] eqn:Hr; [|discriminate].
  intros [= -> ->]. destruct (reject_unknown_returns _ _ _ _ Hr) as (-> & _).
  eexists. exact Hr.
Qed.

(** Each of the four calls makes one request, and after it writes at
    most one line on the console. *)

Lemma identifyWithOpenAI_trace base64Image trace :
  truthy (OPENAI_API_KEY m) = true ->
  snd (identifyWithOpenAI m w base64Image trace)
  = trace ++ [chat_completions (chat_request m base64Image)].
Proof.
  intros Hkey. unfold identifyWithOpenAI. rewrite Hkey. simpl.
  unfold bind, emit, lift, throw, first, ret.
  destruct (fetch_chat_completions w (chat_request m base64Image))
    as [[[data|]|statusText [err|]]|]; try reflexivity.
  destruct (OpenAI.choices data) as [|choice rest]; [reflexivity|].
  destruct (JSON_parse (OpenAI.content (OpenAI.message choice)))
    as [content|]; [|reflexivity].
  unfold reject_unknown, bind, lift, throw, ret.
  destruct (get content (js "commonName")) as [x|]; [|reflexivity].
  destruct (strict_equals x (js "Unknown")); [reflexivity|].
  destruct (get content (js "scientificName")) as [y|]; [|reflexivity].
  destruct (strict_equals y (js "Unknown")); reflexivity.
Qed.

Lemma generateImageWithOpenAI_trace prompt trace :
  truthy (OPENAI_API_KEY m) = true ->
  snd (generateImageWithOpenAI m w prompt trace)
  = trace ++ [images_generations (images_request m prompt)].
Proof.
  intros Hkey. unfold generateImageWithOpenAI. rewrite Hkey. simpl.
  unfold bind, emit, lift, throw, first, ret.
  destruct (fetch_images_generations w (images_request m prompt))
    as [[[data|]|statusText [err|]]|]; try reflexivity.
  destruct (OpenAI.data data) as [|image rest]; reflexivity.
Qed.

Lemma identifyWithGemini_trace base64Image trace :
  exists extra,
    snd (identifyWithGemini m w base64Image trace)
    = trace
      ++ models_generateContent
           (identify_request m (strip_data_url_prefix base64Image))
         :: extra
    /\ console_only extra.
Proof.
  unfold identifyWithGemini, try_catch, bind, emit, lift, throw, ret.
  unfold console_only.
  destruct (generateContent w
              (identify_request m (strip_data_url_prefix base64Image)))
    as [response|]; simpl.
  2: caught.
  destruct (Gemini.text response) as [text|]; simpl.
  2: caught.
  destruct (negb (truthy_text text)); simpl.
  1: caught.
  destruct (JSON_parse text) as [data|]; simpl.
  2: caught.
  unfold reject_unknown, bind, lift, throw, ret.
  destruct (get data (js "commonName")) as [x|]; simpl.
  2: caught.
  destruct (strict_equals x (js "Unknown")); simpl.
  1: caught.
  destruct (get data (js "scientificName")) as [y|]; simpl.
  2: caught.
  destruct (strict_equals y (js "Unknown")); simpl.
  1: caught.
  exists []. split; [reflexivity|]. left. reflexivity.
Qed.

Lemma generateImageWithGemini_trace prompt trace :
  exists extra,
    snd (generateImageWithGemini m w prompt trace)
    = trace ++ models_generateContent (image_request m prompt) :: extra
    /\ console_only extra.
Proof.
  unfold generateImageWithGemini, try_catch, bind, emit, lift, throw, ret.
  unfold console_only, first, throw, ret.
  destruct (generateContent w (image_request m prompt)) as [response|]; simpl.
  2: caught.
  destruct (Gemini.candidates response) as [[|candidate rest]|]; simpl.
  1, 3: caught.
  destruct (Gemini.parts (Gemini.content candidate)) as [parts|]; simpl.
  2: caught.
  destruct (first_inline_image parts) as [url|]; simpl.
  2: caught.
  exists []. split; [reflexivity|]. left. reflexivity.
Qed.

Lemma backends_used_console extra :
  console_only extra -> backends_used extra = [].
Proof. intros [-> | (label & e & ->)]; reflexivity. Qed.

Lemma dispatched_prompts_console extra :
  console_only extra -> dispatched_prompts extra = [].
Proof. intros [-> | (label & e & ->)]; reflexivity. Qed.

(** Either exported call reaches the backend the loaded credential
    selects, once. *)
Lemma identifyPlant_backend base64Image trace :
  backends_used (snd (identifyPlant m w base64Image trace))
  = backends_used trace ++ [selected (OPENAI_API_KEY m)].
Proof.
  unfold identifyPlant, selected, backends_used.
  destruct (truthy (OPENAI_API_KEY m)) eqn:Hkey; unfold bind, emit.
  - rewrite (identifyWithOpenAI_trace _ _ Hkey).
    rewrite !omap_app. simpl. rewrite app_nil_r. reflexivity.
  - destruct (identifyWithGemini_trace base64Image
                (trace ++ [console_log (js "Using Gemini for Identification")]))
      as (extra & Heq & Hextra).
    rewrite Heq, (cons_middle _ _ extra), !omap_app.
    change (omap backend_of extra) with (backends_used extra).
    rewrite (backends_used_console _ Hextra). simpl. rewrite app_nil_r.
    reflexivity.
Qed.

Lemma generatePlantImage_backend prompt trace :
  backends_used (snd (generatePlantImage m w prompt trace))
  = backends_used trace ++ [selected (OPENAI_API_KEY m)].
Proof.
  unfold generatePlantImage, selected, backends_used.
  destruct (truthy (OPENAI_API_KEY m)) eqn:Hkey; unfold bind, emit.
  - rewrite (generateImageWithOpenAI_trace _ _ Hkey).
    rewrite !omap_app. simpl. rewrite app_nil_r. reflexivity.
  - destruct (generateImageWithGemini_trace prompt
                (trace ++ [console_log (js "Using Gemini for Image Generation")]))
      as (extra & Heq & Hextra).
    rewrite Heq, (cons_middle _ _ extra), !omap_app.
    change (omap backend_of extra) with (backends_used extra).
    rewrite (backends_used_console _ Hextra). simpl. rewrite app_nil_r.
    reflexivity.
Qed.

Lemma generatePlantImage_prompt prompt trace :
  dispatched_prompts (snd (generatePlantImage m w prompt trace))
  = dispatched_prompts trace
    ++ [match selected (OPENAI_API_KEY m) with
        | OpenAIBackend => prompt ++ OPENAI_STYLE
        | GeminiBackend => prompt
        end].
Proof.
  unfold generatePlantImage, selected, dispatched_prompts.
  destruct (truthy (OPENAI_API_KEY m)) eqn:Hkey; unfold bind, emit.
  - rewrite (generateImageWithOpenAI_trace _ _ Hkey).
    rewrite !omap_app. simpl. rewrite app_nil_r. reflexivity.
  - destruct (generateImageWithGemini_trace prompt
                (trace ++ [console_log (js "Using Gemini for Image Generation")]))
      as (extra & Heq & Hextra).
    rewrite Heq, (cons_middle _ _ extra), !omap_app.
    change (omap prompt_of extra) with (dispatched_prompts extra).
    rewrite (dispatched_prompts_console _ Hextra). simpl. rewrite app_nil_r. reflexivity.
Qed.
End provider_facts.

(** C1. When the reply of the selected backend parses to a value whose
    [commonName] or [scientificName] is the string ["Unknown"],
    [identifyPlant] throws the error that says no plant was identified,
    whatever else the value holds; and a value that [identifyPlant]
    returns has neither name equal to ["Unknown"]. *)
Theorem C1_sentinel_rejected (m : AiModule) (w : World)
    (base64Image : jsstring) (trace : list Event) :
  (forall content,
     parsed_reply m w base64Image content ->
     get content (js "commonName") = Return (Some (JString (js "Unknown")))
     \/ get content (js "scientificName")
        = Return (Some (JString (js "Unknown"))) ->
     fst (identifyPlant m w base64Image trace) = Throw NOT_A_PLANT)
  /\ (forall pa trace',
        identifyPlant m w base64Image trace = (Return pa, trace') ->
        get pa (js "commonName") ≠ Return (Some (JString (js "Unknown")))
        /\ get pa (js "scientificName")
           ≠ Return (Some (JString (js "Unknown")))).
Proof.
  split.
  - intros content Hreply Hunknown. unfold identifyPlant.
    destruct Hreply as [data choice rest content Hkey Hfetch Hchoices Hcontent
                       | response content Hkey Hgen Htext];
      rewrite Hkey; unfold bind, emit.
    + unfold identifyWithOpenAI. rewrite Hkey. simpl.
      unfold bind, emit, lift, first, ret.
      rewrite Hfetch, Hchoices, Hcontent. simpl.
      rewrite (reject_unknown_throws _ _ Hunknown). reflexivity.
    + unfold identifyWithGemini, try_catch, bind, emit, lift, throw.
      rewrite Hgen, Htext. simpl.
      rewrite (reject_unknown_throws _ _ Hunknown). reflexivity.
  - intros pa trace'. unfold identifyPlant.
    destruct (truthy (OPENAI_API_KEY m)); unfold bind, emit; intros Hr.
    + apply identifyWithOpenAI_returns in Hr as [trace0 Hr].
      apply reject_unknown_returns in Hr. tauto.
    + apply identifyWithGemini_returns in Hr as [trace0 Hr].
      apply reject_unknown_returns in Hr. tauto.
Qed.

Lemma C1_witness :
  fst (identifyPlant (load Sample.with_openai)
         (Sample.answering Sample.unknown_scientific)
         (js "data:image/png;base64,AAAA") [])
  = Throw NOT_A_PLANT
  /\ fst (identifyPlant (load Sample.gemini_only)
            (Sample.answering Sample.unknown_common)
            (js "data:image/png;base64,AAAA") [])
     = Throw NOT_A_PLANT.
Proof.
  split.
  - destruct (C1_sentinel_rejected (load Sample.with_openai)
                (Sample.answering Sample.unknown_scientific)
                (js "data:image/png;base64,AAAA") []) as [Hthrows _].
    apply (Hthrows Sample.unknown_scientific).
    + eapply parsed_openai; reflexivity.
    + right. reflexivity.
  - destruct (C1_sentinel_rejected (load Sample.gemini_only)
                (Sample.answering Sample.unknown_common)
                (js "data:image/png;base64,AAAA") []) as [Hthrows _].
    apply (Hthrows Sample.unknown_common).
    + eapply parsed_gemini; reflexivity.
    + left. reflexivity.
Defined.

(** C3, as the code has it. The credential is read once, when the module
    is loaded: whatever is assigned to the environment afterwards, each
    call of [identifyPlant] and of [generatePlantImage] reaches exactly
    one backend, the one the credential of the environment at load time
    selects. *)
Theorem C3_selection_fixed_at_load (env0 : Env) (later : list Env)
    (w : World) (base64Image prompt : jsstring) (trace : list Event) :
  backends_used
    (snd (identifyPlant (services_ai (foldl set_env (start env0) later)) w
            base64Image trace))
  = backends_used trace ++ [selected (API_KEY_OPENAI env0)]
  /\ backends_used
       (snd (generatePlantImage (services_ai (foldl set_env (start env0) later))
               w prompt trace))
     = backends_used trace ++ [selected (API_KEY_OPENAI env0)].
Proof.
  assert (Hai : forall p, services_ai (foldl set_env p later) = services_ai p).
  { induction later as [|env later' IH]; intros p; simpl; [reflexivity|].
    rewrite IH. reflexivity. }
  rewrite Hai. simpl. split.
  - apply identifyPlant_backend.
  - apply generatePlantImage_backend.
Qed.

(** C3, as the claim has it, fails: a process started without the OpenAI
    credential keeps calling Gemini after the credential has been set,
    though the test on the environment of the moment selects OpenAI. *)
Lemma C3_counterexample :
  selected
    (API_KEY_OPENAI
       (process_env (set_env (start Sample.gemini_only) Sample.with_openai)))
  = OpenAIBackend
  /\ backends_used
       (snd (identifyPlant
               (services_ai
                  (set_env (start Sample.gemini_only) Sample.with_openai))
               (Sample.answering Sample.partial)
               (js "data:image/png;base64,AAAA") []))
     = [GeminiBackend]
  /\ backends_used
       (snd (generatePlantImage
               (services_ai
                  (set_env (start Sample.gemini_only) Sample.with_openai))
               (Sample.answering Sample.partial) (js "a red rose") []))
     = [GeminiBackend].
Proof. repeat split; vm_compute; reflexivity. Qed.

(** C4, as the code has it. With the OpenAI backend the parsed reply is
    returned as it is: a value other than [null] whose two names are not
    the sentinel is the result of [identifyPlant], whatever its shape. *)
Theorem C4_openai_reply_returned_unchecked (m : AiModule) (w : World)
    (base64Image : jsstring) (trace : list Event)
    (data : OpenAI.ChatCompletion) (choice : OpenAI.Choice)
    (rest : list OpenAI.Choice) (content : JSON) :
  truthy (OPENAI_API_KEY m) = true ->
  fetch_chat_completions w (chat_request m base64Image)
  = Return (HttpOk (Return data)) ->
  OpenAI.choices data = choice :: rest ->
  OpenAI.content (OpenAI.message choice) = JsonOf content ->
  content ≠ JNull ->
  get content (js "commonName") ≠ Return (Some (JString (js "Unknown"))) ->
  get content (js "scientificName") ≠ Return (Some (JString (js "Unknown"))) ->
  fst (identifyPlant m w base64Image trace) = Return content.
Proof.
  intros Hkey Hfetch Hchoices Hcontent Hnull Hc Hs.
  unfold identifyPlant. rewrite Hkey. unfold bind, emit.
  unfold identifyWithOpenAI. rewrite Hkey. simpl.
  unfold bind, emit, lift, first, ret.
  rewrite Hfetch, Hchoices, Hcontent. simpl.
  rewrite (reject_unknown_passes _ _ Hnull Hc Hs). reflexivity.
Qed.

Lemma C4_witness :
  fst (identifyPlant (load Sample.with_openai)
         (Sample.answering (JArray [JNumber (js "42")]))
         (js "data:image/png;base64,AAAA") [])
  = Return (JArray [JNumber (js "42")]).
Proof.
  eapply (C4_openai_reply_returned_unchecked (load Sample.with_openai)
            (Sample.answering (JArray [JNumber (js "42")])));
    try reflexivity; discriminate.
Defined.

(** C4, as the claim has it, fails: a reply that lacks eight of the nine
    fields of a [PlantAnalysis] is returned by the OpenAI path. *)
Lemma C4_counterexample :
  selected (OPENAI_API_KEY (load Sample.with_openai)) = OpenAIBackend
  /\ identifyPlant (load Sample.with_openai) (Sample.answering Sample.partial)
       (js "data:image/png;base64,AAAA") []
     = (Return Sample.partial,
        [console_log (js "Using OpenAI for Identification");
         chat_completions
           (chat_request (load Sample.with_openai)
              (js "data:image/png;base64,AAAA"))])
  /\ is_PlantAnalysis Sample.partial = false.
Proof. repeat split; vm_compute; reflexivity. Qed.

(** C5. The claim holds of the OpenAI path and fails on the Gemini path:
    with the Gemini backend selected, [generatePlantImage] sends the
    prompt it is given, without the style sentence that
    [generateImageWithOpenAI] puts behind it. The style text Gemini gets
    is the one the caller [handleGenerateImage] adds, so that the OpenAI
    backend gets the style twice. *)
Theorem C5_style_suffix_missing_on_gemini :
  selected (OPENAI_API_KEY (load Sample.gemini_only)) = GeminiBackend
  /\ dispatched_prompts
       (snd (generatePlantImage (load Sample.gemini_only)
               (Sample.answering Sample.partial) (js "a red rose") []))
     = [js "a red rose"]
  /\ dispatched_prompts
       (snd (generatePlantImage (load Sample.with_openai)
               (Sample.answering Sample.partial) (js "a red rose") []))
     = [js "a red rose" ++ OPENAI_STYLE]
  /\ dispatched_prompts
       (snd (handleGenerateImage (load Sample.gemini_only)
               (Sample.answering Sample.partial) Sample.app []))
     = [js "a red rose" ++ CALLER_STYLE]
  /\ dispatched_prompts
       (snd (handleGenerateImage (load Sample.with_openai)
               (Sample.answering Sample.partial) Sample.app []))
     = [js "a red rose" ++ CALLER_STYLE ++ OPENAI_STYLE].
Proof. repeat split; vm_compute; reflexivity. Qed.

(** * Further properties of the store *)

Section store_calls.
Implicit Types (st : Storage) (l : list UserPlant.t) (p : UserPlant.t).

Lemma savePlant_granted e st :
  access st = Granted ->
  savePlant e st = (Return tt, written (e :: entries st) st).
Proof.
  intros Hacc. unfold savePlant, bind. rewrite getPlants_entries.
  apply setItem_granted. assumption.
Qed.

Lemma deletePlant_granted plantId st :
  access st = Granted ->
  deletePlant plantId st
  = (Return tt,
     written (filter (fun p => UserPlant.id p ≠ plantId) (entries st)) st).
Proof.
  intros Hacc. unfold deletePlant, bind. rewrite getPlants_entries.
  apply setItem_granted. assumption.
Qed.

Lemma setItem_throws st key value err st' :
  setItem key value st = (Throw err, st') -> st' = st.
Proof. unfold setItem. destruct (access st); congruence. Qed.

Lemma setItem_refused st key value :
  access st ≠ Granted -> exists err, setItem key value st = (Throw err, st).
Proof.
  unfold setItem. destruct (access st); [contradiction | eauto..].
Qed.

Lemma access_written l st : access (written l st) = Granted.
Proof. reflexivity. Qed.

(** Replacing an entry by one of the same id keeps the ids, and the ids
    decide where [findIndex] stops. *)
Lemma ids_insert l i p p' :
  l !! i = Some p -> UserPlant.id p' = UserPlant.id p ->
  ids (<[i := p']> l) = ids l.
Proof.
  intros Hp Hid. unfold ids. rewrite list_fmap_insert, Hid.
  apply list_insert_id. rewrite list_lookup_fmap, Hp. reflexivity.
Qed.



Lemma target_None plantId st :
  target plantId st = None <->
  forall p, p ∈ entries st -> UserPlant.id p ≠ plantId.
Proof.
  unfold target.
  destruct (findIndex (id_is plantId) (entries st)) as [i|] eqn:Hfind.
  - destruct (findIndex_Some _ _ _ Hfind) as (x & Hx & Hfx & _).
    rewrite Hx. simpl. split; [discriminate|]. intros Habs.
    apply id_is_true in Hfx. destruct (Habs x); [|assumption].
    apply list_elem_of_lookup. eauto.
  - split; [|reflexivity]. intros _ p Hp. apply id_is_false.
    rewrite findIndex_None in Hfind. apply Hfind. assumption.
Qed.

Lemma target_findIndex_None plantId st :
  target plantId st = None -> findIndex (id_is plantId) (entries st) = None.
Proof. intros H. apply target_absent, target_None. assumption. Qed.

(** The two calls that change one entry, as [modify]. *)
Lemma toggleFavoritePlant_modify plantId st :
  access st = Granted ->
  snd (toggleFavoritePlant plantId st) = modify toggled plantId st.
Proof.
  intros Hacc. unfold modify.
  destruct (target plantId st) as [[i p]|] eqn:Ht.
  - rewrite (toggleFavoritePlant_target _ _ _ _ Hacc Ht). reflexivity.
  - rewrite (toggleFavoritePlant_absent _ _ (target_findIndex_None _ _ Ht)).
    reflexivity.
Qed.

Lemma addNoteToPlant_modify clock plantId noteText st :
  access st = Granted ->
  snd (addNoteToPlant clock plantId noteText st)
  = modify (noted clock noteText) plantId st.
Proof.
  intros Hacc. unfold modify.
  destruct (target plantId st) as [[i p]|] eqn:Ht.
  - rewrite (addNoteToPlant_target _ _ _ _ _ _ Hacc Ht). reflexivity.
  - rewrite (addNoteToPlant_absent _ _ _ _ (target_findIndex_None _ _ Ht)).
    reflexivity.
Qed.


Lemma ids_modify f plantId st :
  (forall p, UserPlant.id (f p) = UserPlant.id p) ->
  ids (entries (modify f plantId st)) = ids (entries st).
Proof.
  intros Hf. unfold modify.
  destruct (target plantId st) as [[i p]|] eqn:Ht; [|reflexivity].
  destruct (target_Some _ _ _ _ Ht) as (_ & Hp & _).
  rewrite entries_written. eapply ids_insert; [eassumption | apply Hf].
Qed.

End store_calls.

Section store_more.
Implicit Types (st : Storage) (l : list UserPlant.t) (p : UserPlant.t).

Lemma filter_all {A : Type} (P : A -> Prop) `{!forall x, Decision (P x)}
    (xs : list A) :
  (forall x, x ∈ xs -> P x) -> filter P xs = xs.
Proof.
  induction xs as [|x xs IH]; intros Hall; [reflexivity|].
  rewrite filter_cons_True by (apply Hall; left).
  rewrite IH; [reflexivity|]. intros y Hy. apply Hall. right. assumption.
Qed.

Lemma access_cases st : access st = Granted \/ access st ≠ Granted.
Proof. destruct (access st); [left | right | right]; congruence. Qed.

(** Without leave to write, no call changes the storage. *)
Lemma setItem_refused_state st key value :
  access st ≠ Granted -> snd (setItem key value st) = st.
Proof.
  intros Hacc. destruct (setItem_refused st key value Hacc) as [err ->].
  reflexivity.
Qed.

Lemma toggleFavoritePlant_refused plantId st :
  access st ≠ Granted -> snd (toggleFavoritePlant plantId st) = st.
Proof.
  intros Hacc. unfold toggleFavoritePlant, bind. rewrite getPlants_entries.
  destruct (findIndex (id_is plantId) (entries st)) as [i|]; [|reflexivity].
  unfold at_index. destruct (entries st !! i) as [p|]; [|reflexivity].
  unfold ret at 1.
  destruct (setItem_refused st STORAGE_KEY
              (JSON_stringify (<[i := UserPlant.set_isFavorite
                                        (negb (UserPlant.isFavorite p)) p]>
                                 (entries st))) Hacc) as [err ->].
  reflexivity.
Qed.

Lemma addNoteToPlant_refused clock plantId noteText st :
  access st ≠ Granted -> snd (addNoteToPlant clock plantId noteText st) = st.
Proof.
  intros Hacc. unfold addNoteToPlant, bind. rewrite getPlants_entries.
  destruct (findIndex (id_is plantId) (entries st)) as [i|]; [|reflexivity].
  unfold at_index. destruct (entries st !! i) as [p|]; [|reflexivity].
  unfold ret at 1.
  match goal with
  | |- context [setItem ?k ?v st] =>
      destruct (setItem_refused st k v Hacc) as [err ->]
  end.
  reflexivity.
Qed.

Lemma deletePlant_refused plantId st :
  access st ≠ Granted -> exists err, deletePlant plantId st = (Throw err, st).
Proof.
  intros Hacc. unfold deletePlant, bind. rewrite getPlants_entries.
  apply setItem_refused. assumption.
Qed.

Lemma savePlant_refused e st :
  access st ≠ Granted -> exists err, savePlant e st = (Throw err, st).
Proof.
  intros Hacc. unfold savePlant, bind. rewrite getPlants_entries.
  apply setItem_refused. assumption.
Qed.

Lemma updatePlant_target u st i p :
  access st = Granted -> target (UserPlant.id u) st = Some (i, p) ->
  updatePlant u st = (Return tt, written (<[i := u]> (entries st)) st).
Proof.
  intros Hacc Ht. destruct (target_Some _ _ _ _ Ht) as (Hfind & _).
  unfold updatePlant, bind. rewrite getPlants_entries, Hfind.
  apply setItem_granted. assumption.
Qed.

Lemma updatePlant_absent u st :
  target (UserPlant.id u) st = None -> updatePlant u st = (Return tt, st).
Proof.
  intros Ht. unfold updatePlant, bind.
  rewrite getPlants_entries, (target_findIndex_None _ _ Ht). reflexivity.
Qed.

Lemma target_head e l st :
  target (UserPlant.id e) (written (e :: l) st) = Some (0, e).
Proof.
  unfold target. rewrite entries_written. simpl. unfold id_is.
  rewrite bool_decide_eq_true_2 by reflexivity. reflexivity.
Qed.

Lemma ids_filter_NoDup plantId l :
  NoDup (ids l) ->
  NoDup (ids (filter (fun p => UserPlant.id p ≠ plantId) l)).
Proof.
  unfold ids. induction l as [|x l IH]; simpl; [intros; constructor|].
  rewrite NoDup_cons. intros [Hx Hl]. rewrite filter_cons.
  destruct (decide (UserPlant.id x ≠ plantId)); [|apply IH; assumption].
  rewrite fmap_cons, NoDup_cons. split; [|apply IH; assumption].
  intros Hin. apply Hx. apply list_elem_of_fmap in Hin as (y & Hy & Hin).
  apply list_elem_of_filter in Hin as [_ Hin].
  apply list_elem_of_fmap. eauto.
Qed.
End store_more.

(** X1. On a storage that accepts the write, [deletePlant] stores the
    collection without every entry of the id, duplicates included: the
    entries of other ids stay, in their order, and when the id does not
    occur the collection is the same. *)
Theorem X1_deletePlant_removes_every_match (st : Storage)
    (plantId : jsstring) :
  access st = Granted ->
  exists st',
    deletePlant plantId st = (Return tt, st')
    /\ entries st'
       = filter (fun p => UserPlant.id p ≠ plantId) (entries st)
    /\ (forall p, p ∈ entries st' <->
                  p ∈ entries st /\ UserPlant.id p ≠ plantId)
    /\ entries st' `sublist_of` entries st
    /\ ((forall p, p ∈ entries st -> UserPlant.id p ≠ plantId) ->
        entries st' = entries st).
Proof.
  intros Hacc. eexists. split; [apply deletePlant_granted; assumption|].
  rewrite entries_written. split; [reflexivity|]. split; [|split].
  - intros p. rewrite list_elem_of_filter. tauto.
  - apply sublist_filter.
  - intros Habs. apply filter_all. assumption.
Qed.

Lemma X1_witness :
  exists st',
    deletePlant (js "1") Sample.store = (Return tt, st')
    /\ entries st' = [Sample.e2].
Proof.
  destruct (X1_deletePlant_removes_every_match Sample.store (js "1") eq_refl)
    as (st' & Hdel & Hentries & _).
  exists st'. split; [exact Hdel|]. rewrite Hentries. reflexivity.
Defined.

(** X2. Deleting an id a second time changes nothing more: the storage
    after two calls of [deletePlant] is the storage after one, whatever
    the storage. *)
Theorem X2_deletePlant_idempotent (st : Storage) (plantId : jsstring) :
  snd (deletePlant plantId (snd (deletePlant plantId st)))
  = snd (deletePlant plantId st).
Proof.
  destruct (access_cases st) as [Hacc|Hacc].
  - rewrite (deletePlant_granted _ _ Hacc). simpl.
    rewrite (deletePlant_granted _ _ (access_written _ _)). simpl.
    rewrite entries_written, written_written. f_equal.
    apply filter_all. intros p Hp.
    apply list_elem_of_filter in Hp as [Hp _]. exact Hp.
  - destruct (deletePlant_refused plantId st Hacc) as [err Hdel].
    rewrite Hdel. simpl. rewrite Hdel. reflexivity.
Qed.

(** X3. Saving an entry whose id is new and then deleting that id gives
    back the collection as it was. *)
Theorem X3_save_then_delete (st : Storage) (e : UserPlant.t) :
  access st = Granted ->
  (forall p, p ∈ entries st -> UserPlant.id p ≠ UserPlant.id e) ->
  exists st1 st2,
    savePlant e st = (Return tt, st1)
    /\ deletePlant (UserPlant.id e) st1 = (Return tt, st2)
    /\ entries st2 = entries st.
Proof.
  intros Hacc Hfresh. eexists _, _.
  split; [apply savePlant_granted; assumption|].
  split; [apply deletePlant_granted; reflexivity|].
  rewrite !entries_written, filter_cons_False by tauto.
  apply filter_all. assumption.
Qed.

Lemma X3_witness :
  exists st1 st2,
    savePlant Example.fresh Example.store = (Return tt, st1)
    /\ deletePlant (js "3") st1 = (Return tt, st2)
    /\ entries st2 = [Sample.e2; Sample.e1].
Proof.
  apply (X3_save_then_delete Example.store Example.fresh); [reflexivity|].
  intros p Hp. vm_compute in Hp.
  repeat (apply elem_of_cons in Hp as [-> | Hp]; [discriminate|]).
  inversion Hp.
Defined.

(** X4. A call of the store that throws has written nothing: the storage
    is exactly as before the call. *)
Theorem X4_throwing_call_writes_nothing (clock : Clock) (st st' : Storage)
    (err : JsError) (e : UserPlant.t) (plantId noteText : jsstring) :
  (savePlant e st = (Throw err, st') -> st' = st)
  /\ (updatePlant e st = (Throw err, st') -> st' = st)
  /\ (deletePlant plantId st = (Throw err, st') -> st' = st)
  /\ (addNoteToPlant clock plantId noteText st = (Throw err, st') -> st' = st)
  /\ (toggleFavoritePlant plantId st = (Throw err, st') -> st' = st).
Proof.
  unfold savePlant, updatePlant, deletePlant, addNoteToPlant,
    toggleFavoritePlant, bind.
  rewrite !getPlants_entries. repeat split.
  - apply setItem_throws.
  - destruct (findIndex _ (entries st)); [apply setItem_throws|discriminate].
  - apply setItem_throws.
  - destruct (findIndex _ (entries st)) as [i|]; [|discriminate].
    unfold at_index. destruct (entries st !! i) as [p|];
      [|intros [= _ <-]; reflexivity].
    unfold ret at 1.
    destruct (setItem _ _ st) as [[[]|err0] st0] eqn:Hset; [discriminate|].
    intros [= _ <-]. eapply setItem_throws. eassumption.
  - destruct (findIndex _ (entries st)) as [i|]; [|discriminate].
    unfold at_index. destruct (entries st !! i) as [p|];
      [|intros [= _ <-]; reflexivity].
    unfold ret at 1.
    destruct (setItem _ _ st) as [[[]|err0] st0] eqn:Hset; [discriminate|].
    intros [= _ <-]. eapply setItem_throws. eassumption.
Qed.

Lemma X4_witness :
  snd (toggleFavoritePlant (js "1") Example.full) = Example.full
  /\ snd (savePlant Example.fresh Example.full) = Example.full.
Proof.
  split.
  - destruct (X4_throwing_call_writes_nothing Sample.clock Example.full
                (snd (toggleFavoritePlant (js "1") Example.full))
                (DOMException (js "QuotaExceededError"))
                Sample.e1 (js "1") (js "Repotted"))
      as (_ & _ & _ & _ & Htoggle).
    apply Htoggle. reflexivity.
  - destruct (X4_throwing_call_writes_nothing Sample.clock Example.full
                (snd (savePlant Example.fresh Example.full))
                (DOMException (js "QuotaExceededError"))
                Example.fresh (js "1") (js "Repotted"))
      as (Hsave & _).
    apply Hsave. reflexivity.
Defined.

(** X5. A storage that cannot be reached reads as an empty diary: for
    every id [toggleFavoritePlant] and [addNoteToPlant] return [null] and
    [updatePlant] returns, none of them throwing, while [savePlant] and
    [deletePlant] throw, the latter also for an id that could not be
    there; the storage stays as it is. *)
Theorem X5_denied_storage (clock : Clock) (st : Storage) (e : UserPlant.t)
    (plantId noteText : jsstring) :
  access st = Denied ->
  getPlants st = (Return [], st)
  /\ toggleFavoritePlant plantId st = (Return None, st)
  /\ addNoteToPlant clock plantId noteText st = (Return None, st)
  /\ updatePlant e st = (Return tt, st)
  /\ savePlant e st = (Throw (DOMException (js "SecurityError")), st)
  /\ deletePlant plantId st = (Throw (DOMException (js "SecurityError")), st).
Proof.
  intros Hacc. pose proof (entries_denied _ Hacc) as Hempty.
  unfold toggleFavoritePlant, addNoteToPlant, updatePlant, savePlant,
    deletePlant, bind.
  rewrite !getPlants_entries, Hempty. simpl. unfold setItem. rewrite Hacc.
  repeat split.
Qed.

Lemma X5_witness :
  toggleFavoritePlant (js "1") Example.locked = (Return None, Example.locked)
  /\ deletePlant (js "9") Example.locked
     = (Throw (DOMException (js "SecurityError")), Example.locked).
Proof.
  destruct (X5_denied_storage Sample.clock Example.locked Example.fresh
              (js "1") (js "Repotted") eq_refl) as (_ & Htoggle & _).
  destruct (X5_denied_storage Sample.clock Example.locked Example.fresh
              (js "9") (js "Repotted") eq_refl) as (_ & _ & _ & _ & _ & Hdel).
  split; assumption.
Defined.

(** X6. [updatePlant] puts the given entry in the place of the first
    entry that has its id, and leaves every other index, the length and
    the ids as they were; when no entry has the id it writes nothing and
    returns, on any storage. *)
Theorem X6_updatePlant_replaces_first (st : Storage) (u : UserPlant.t) :
  (access st = Granted ->
   (exists p, p ∈ entries st /\ UserPlant.id p = UserPlant.id u) ->
   exists i p st',
     entries st !! i = Some p /\ UserPlant.id p = UserPlant.id u
     /\ (forall j q, j < i -> entries st !! j = Some q ->
                     UserPlant.id q ≠ UserPlant.id u)
     /\ updatePlant u st = (Return tt, st')
     /\ entries st' = <[i := u]> (entries st)
     /\ entries st' !! i = Some u
     /\ length (entries st') = length (entries st)
     /\ ids (entries st') = ids (entries st))
  /\ ((forall p, p ∈ entries st -> UserPlant.id p ≠ UserPlant.id u) ->
      updatePlant u st = (Return tt, st)).
Proof.
  split.
  - intros Hacc Hpresent.
    destruct (target_present _ _ Hpresent) as (i & p & Ht).
    destruct (target_Some _ _ _ _ Ht) as (_ & Hp & Hid & Hbefore).
    exists i, p, (written (<[i := u]> (entries st)) st).
    rewrite entries_written.
    split; [assumption|]. split; [assumption|]. split; [assumption|].
    split; [apply (updatePlant_target _ _ _ p); assumption|].
    split; [reflexivity|]. split; [|split].
    + apply list_lookup_insert_eq. eapply lookup_lt_Some. eassumption.
    + apply length_insert.
    + apply (ids_insert _ _ p); [assumption | congruence].
  - intros Habs. apply updatePlant_absent, target_None. assumption.
Qed.

Lemma X6_witness :
  (exists i p st',
     entries Sample.store !! i = Some p /\ UserPlant.id p = js "1"
     /\ updatePlant Sample.e1_older Sample.store = (Return tt, st')
     /\ entries st' = <[i := Sample.e1_older]> (entries Sample.store))
  /\ updatePlant Example.fresh Sample.store = (Return tt, Sample.store).
Proof.
  destruct (X6_updatePlant_replaces_first Sample.store Sample.e1_older)
    as [Hpresent _].
  destruct (X6_updatePlant_replaces_first Sample.store Example.fresh)
    as [_ Habsent].
  split.
  - destruct Hpresent as (i & p & st' & Hp & Hid & _ & Hup & Hent & _);
      [reflexivity | |].
    + exists Sample.e1. split; [|reflexivity].
      vm_compute. apply list_elem_of_further, list_elem_of_here.
    + exists i, p, st'. repeat split; assumption.
  - apply Habsent. intros p Hp. vm_compute in Hp.
    repeat (apply elem_of_cons in Hp as [-> | Hp]; [discriminate|]).
    inversion Hp.
Defined.

(** X7. Two notes added one after the other to the same id lie in front
    of the older notes with the later one first. *)
Theorem X7_addNote_twice_newest_first (clock1 clock2 : Clock) (st : Storage)
    (plantId text1 text2 : jsstring) :
  access st = Granted ->
  (exists p, p ∈ entries st /\ UserPlant.id p = plantId) ->
  exists i p p1 p2 st1 st2,
    entries st !! i = Some p
    /\ addNoteToPlant clock1 plantId text1 st = (Return (Some p1), st1)
    /\ addNoteToPlant clock2 plantId text2 st1 = (Return (Some p2), st2)
    /\ entries st2 !! i = Some p2
    /\ notes_or_empty p2
       = PlantNote.mk (Date_now_toString clock2) (Date_toISOString clock2) text2
         :: PlantNote.mk (Date_now_toString clock1) (Date_toISOString clock1)
              text1
         :: notes_or_empty p.
Proof.
  intros Hacc Hpresent.
  destruct (target_present _ _ Hpresent) as (i & p & Ht).
  destruct (target_Some _ _ _ _ Ht) as (_ & Hp & Hid & _).
  pose proof (lookup_lt_Some _ _ _ Hp) as Hlt.
  assert (Ht1 : target plantId
                  (written (<[i := noted clock1 text1 p]> (entries st)) st)
                = Some (i, noted clock1 text1 p)).
  { apply (target_written _ _ _ p); [exact Ht | exact Hid]. }
  eexists i, p, _, _, _, _. split; [exact Hp|].
  split; [apply addNoteToPlant_target; eassumption|].
  split; [apply addNoteToPlant_target; [reflexivity | exact Ht1]|].
  split; [|reflexivity].
  rewrite !entries_written. apply list_lookup_insert_eq.
  rewrite length_insert. assumption.
Qed.

Lemma X7_witness :
  exists i p p1 p2 st1 st2,
    entries Sample.store !! i = Some p
    /\ addNoteToPlant Sample.clock (js "1") (js "Repotted") Sample.store
       = (Return (Some p1), st1)
    /\ addNoteToPlant Sample.clock (js "1") (js "New leaf") st1
       = (Return (Some p2), st2)
    /\ entries st2 !! i = Some p2
    /\ notes_or_empty p2
       = PlantNote.mk (Date_now_toString Sample.clock)
           (Date_toISOString Sample.clock) (js "New leaf")
         :: PlantNote.mk (Date_now_toString Sample.clock)
              (Date_toISOString Sample.clock) (js "Repotted")
         :: notes_or_empty p.
Proof.
  apply (X7_addNote_twice_newest_first Sample.clock Sample.clock Sample.store
           (js "1") (js "Repotted") (js "New leaf")); [reflexivity|].
  exists Sample.e1. split; [|reflexivity].
  vm_compute. apply list_elem_of_further, list_elem_of_here.
Defined.


(** X9. An entry that has just been saved is the one a call on its id
    works on, also when older entries have the same id: toggling that id
    after [savePlant] returns the saved entry with its flag negated and
    leaves it at the front of the collection, before the entries that
    were there, which are unchanged. *)
Theorem X9_saved_entry_is_target (st : Storage) (e : UserPlant.t) :
  access st = Granted ->
  exists st1 st2,
    savePlant e st = (Return tt, st1)
    /\ toggleFavoritePlant (UserPlant.id e) st1
       = (Return (Some (UserPlant.set_isFavorite
                          (negb (UserPlant.isFavorite e)) e)), st2)
    /\ entries st2
       = UserPlant.set_isFavorite (negb (UserPlant.isFavorite e)) e
         :: entries st.
Proof.
  intros Hacc. eexists _, _.
  split; [apply savePlant_granted; assumption|].
  split.
  - apply (toggleFavoritePlant_target _ _ 0 e); [reflexivity|].
    apply target_head.
  - rewrite !entries_written. reflexivity.
Qed.

Lemma X9_witness :
  exists st1 st2,
    savePlant Sample.e1_older Sample.store = (Return tt, st1)
    /\ toggleFavoritePlant (js "1") st1
       = (Return (Some (UserPlant.set_isFavorite false Sample.e1_older)), st2)
    /\ entries st2
       = [UserPlant.set_isFavorite false Sample.e1_older;
          Sample.e2; Sample.e1; Sample.e1_older].
Proof.
  apply (X9_saved_entry_is_target Sample.store Sample.e1_older). reflexivity.
Defined.

(** X10. No two entries of one id: [toggleFavoritePlant],
    [addNoteToPlant], [updatePlant] and [deletePlant] keep a collection
    so, on any storage, and [savePlant] keeps it so exactly when the id
    of the saved entry is new. *)
Theorem X10_unique_ids_kept (clock : Clock) (st : Storage) (e : UserPlant.t)
    (plantId noteText : jsstring) :
  NoDup (ids (entries st)) ->
  NoDup (ids (entries (snd (toggleFavoritePlant plantId st))))
  /\ NoDup (ids (entries (snd (addNoteToPlant clock plantId noteText st))))
  /\ NoDup (ids (entries (snd (updatePlant e st))))
  /\ NoDup (ids (entries (snd (deletePlant plantId st))))
  /\ (access st = Granted ->
      (NoDup (ids (entries (snd (savePlant e st))))
       <-> UserPlant.id e ∉ ids (entries st))).
Proof.
  intros Hnodup. destruct (access_cases st) as [Hacc|Hacc].
  - split; [|split; [|split; [|split]]].
    + rewrite (toggleFavoritePlant_modify _ _ Hacc), ids_modify;
        [assumption | reflexivity].
    + rewrite (addNoteToPlant_modify _ _ _ _ Hacc), ids_modify;
        [assumption | reflexivity].
    + destruct (target (UserPlant.id e) st) as [[i p]|] eqn:Ht.
      * rewrite (updatePlant_target _ _ _ _ Hacc Ht). simpl.
        destruct (target_Some _ _ _ _ Ht) as (_ & Hp & Hid & _).
        rewrite entries_written, (ids_insert _ _ p); [assumption.. |].
        congruence.
      * rewrite (updatePlant_absent _ _ Ht). assumption.
    + rewrite (deletePlant_granted _ _ Hacc). simpl.
      rewrite entries_written. apply ids_filter_NoDup. assumption.
    + intros _. rewrite (savePlant_granted _ _ Hacc). simpl.
      rewrite entries_written. unfold ids. rewrite fmap_cons, NoDup_cons.
      tauto.
  - split; [|split; [|split; [|split]]].
    + rewrite (toggleFavoritePlant_refused _ _ Hacc). assumption.
    + rewrite (addNoteToPlant_refused _ _ _ _ Hacc). assumption.
    + unfold updatePlant, bind. rewrite getPlants_entries.
      destruct (findIndex _ (entries st)); [|assumption].
      rewrite setItem_refused_state by assumption. assumption.
    + destruct (deletePlant_refused plantId st Hacc) as [err ->]. assumption.
    + intros Hgranted. contradiction.
Qed.

Lemma X10_witness :
  NoDup (ids (entries (snd (addNoteToPlant Sample.clock (js "1")
                              (js "Repotted") Example.store))))
  /\ NoDup (ids (entries (snd (savePlant Example.fresh Example.store))))
  /\ ~ NoDup (ids (entries (snd (savePlant Sample.e1_older Example.store)))).
Proof.
  assert (Hnodup : NoDup (ids (entries Example.store))).
  { vm_compute. repeat constructor; rewrite ?elem_of_cons, ?elem_of_nil;
      intros H; intuition discriminate. }
  destruct (X10_unique_ids_kept Sample.clock Example.store Example.fresh
              (js "1") (js "Repotted") Hnodup) as (_ & Hnote & _ & _ & Hfresh).
  destruct (X10_unique_ids_kept Sample.clock Example.store Sample.e1_older
              (js "1") (js "Repotted") Hnodup) as (_ & _ & _ & _ & Hdup).
  split; [exact Hnote|]. split.
  - apply Hfresh; [reflexivity|]. intros Hin.
    apply list_elem_of_fmap in Hin as (q & Hq & Hin). vm_compute in Hin.
    repeat (apply elem_of_cons in Hin as [-> | Hin]; [discriminate|]).
    inversion Hin.
  - intros Hno. apply Hdup in Hno; [|reflexivity]. apply Hno.
    apply list_elem_of_fmap. exists Sample.e1. split; [reflexivity|].
    vm_compute. apply list_elem_of_further, list_elem_of_here.
Defined.

(** * Properties of the handlers of the component *)

(** Where no two entries share an id, replacing every entry of an id, as
    the handlers do with their copy of the collection, is replacing the
    first one, as the store does. *)
Lemma fmap_replace_unique (plantId : jsstring) (u : UserPlant.t)
    (l : list UserPlant.t) (i : nat) (p : UserPlant.t) :
  NoDup (ids l) -> l !! i = Some p -> UserPlant.id p = plantId ->
  (fun q => if id_is plantId q then u else q) <$> l = <[i := u]> l.
Proof.
  intros Hnodup Hp Hid. apply list_eq. intros j.
  rewrite list_lookup_fmap. destruct (decide (j = i)) as [->|Hne].
  - rewrite Hp, list_lookup_insert_eq by (eapply lookup_lt_Some; eassumption).
    simpl. rewrite (proj2 (id_is_true plantId p) Hid). reflexivity.
  - rewrite list_lookup_insert_ne by congruence.
    destruct (l !! j) as [q|] eqn:Hq; [|reflexivity]. simpl.
    destruct (id_is plantId q) eqn:Hidq; [|reflexivity].
    apply id_is_true in Hidq. destruct Hne.
    apply (NoDup_lookup (ids l) j i plantId Hnodup); unfold ids;
      rewrite list_lookup_fmap.
    + rewrite Hq. simpl. congruence.
    + rewrite Hp. simpl. congruence.
Qed.

(** X11. When the copy of the collection the component holds is the
    stored one and no two entries share an id, [handleToggleFavorite]
    keeps it so: the copy after the call is the stored collection after
    the call, with the flag of the entry negated in both; the selected
    plant is replaced by the updated entry when it has the id. For an id
    that does not occur nothing changes. *)
Theorem X11_handleToggleFavorite_keeps_sync (st : Storage) (a : App)
    (plantId : jsstring) :
  (access st = Granted -> NoDup (ids (entries st)) -> plants a = entries st ->
   (exists p, p ∈ entries st /\ UserPlant.id p = plantId) ->
   exists a' st' p',
     handleToggleFavorite plantId a st = (Return a', st')
     /\ toggleFavoritePlant plantId st = (Return (Some p'), st')
     /\ plants a' = entries st'
     /\ selectedPlant a'
        = match selectedPlant a with
          | Some selected =>
              if bool_decide (UserPlant.id selected = plantId)
              then Some p' else Some selected
          | None => None
          end
     /\ toast a' = toast a)
  /\ ((forall p, p ∈ entries st -> UserPlant.id p ≠ plantId) ->
      handleToggleFavorite plantId a st = (Return a, st)).
Proof.
  split.
  - intros Hacc Hnodup Hsync Hpresent.
    destruct (target_present _ _ Hpresent) as (i & p & Ht).
    destruct (target_Some _ _ _ _ Ht) as (_ & Hp & Hid & _).
    pose proof (toggleFavoritePlant_target _ _ _ _ Hacc Ht) as Htoggle.
    eexists _, _, (toggled p). unfold handleToggleFavorite, bind.
    rewrite Htoggle. split; [reflexivity|]. split; [reflexivity|].
    rewrite entries_written.
    destruct (selectedPlant a) as [selected|] eqn:Hsel; simpl; rewrite Hsel.
    + change (bool_decide (UserPlant.id selected = plantId))
        with (id_is plantId selected).
      destruct (id_is plantId selected); simpl; rewrite ?Hsel, Hsync;
        (split; [apply (fmap_replace_unique _ _ _ _ p); assumption|]);
        split; reflexivity.
    + simpl. rewrite Hsync, Hsel.
      split; [apply (fmap_replace_unique _ _ _ _ p); assumption|].
      split; reflexivity.
  - intros Habs. unfold handleToggleFavorite, bind.
    rewrite (toggleFavoritePlant_absent _ _ (target_absent _ _ Habs)).
    reflexivity.
Qed.

Lemma X11_witness :
  (exists a' st' p',
     handleToggleFavorite (js "1") Example.in_sync Example.store
     = (Return a', st')
     /\ plants a' = entries st'
     /\ selectedPlant a' = Some p'
     /\ UserPlant.isFavorite p' = true)
  /\ handleToggleFavorite (js "3") Example.in_sync Example.store
     = (Return Example.in_sync, Example.store).
Proof.
  destruct (X11_handleToggleFavorite_keeps_sync Example.store Example.in_sync
              (js "1")) as [Hpresent _].
  destruct (X11_handleToggleFavorite_keeps_sync Example.store Example.in_sync
              (js "3")) as [_ Habsent].
  split.
  - destruct Hpresent as (a' & st' & p' & Hcall & Htoggle & Hsync & Hsel & _).
    + reflexivity.
    + vm_compute. repeat constructor; rewrite ?elem_of_cons, ?elem_of_nil;
        intros H; intuition discriminate.
    + reflexivity.
    + exists Sample.e1. split; [|reflexivity].
      vm_compute. apply list_elem_of_further, list_elem_of_here.
    + exists a', st', p'. split; [exact Hcall|]. split; [exact Hsync|].
      split; [exact Hsel|].
      vm_compute in Htoggle. injection Htoggle as <- _. reflexivity.
  - apply Habsent. intros p Hp. vm_compute in Hp.
    repeat (apply elem_of_cons in Hp as [-> | Hp]; [discriminate|]).
    inversion Hp.
Defined.

(** X12. With a plant selected whose id is stored, a text that is not
    blank, and the copy of the collection in step with a store without
    two entries of one id, [handleAddNote] stores the note with the text
    as it was typed, not trimmed, selects the updated entry, shows the
    toast of success and keeps the copy in step with the store. *)
Theorem X12_handleAddNote_stores_and_keeps_sync (clock : Clock)
    (st : Storage) (a : App) (selected : UserPlant.t) (text : jsstring) :
  access st = Granted -> NoDup (ids (entries st)) -> plants a = entries st ->
  selectedPlant a = Some selected ->
  (exists p, p ∈ entries st /\ UserPlant.id p = UserPlant.id selected) ->
  trim text ≠ [] ->
  exists a' st' p',
    handleAddNote clock text a st = (Return a', st')
    /\ addNoteToPlant clock (UserPlant.id selected) text st
       = (Return (Some p'), st')
    /\ plants a' = entries st'
    /\ selectedPlant a' = Some p'
    /\ notes_or_empty p' !! 0
       = Some (PlantNote.mk (Date_now_toString clock) (Date_toISOString clock)
                 text)
    /\ toast a' = Some (ToastMessage.mk ToastMessage.success NOTE_ADDED).
Proof.
  intros Hacc Hnodup Hsync Hsel Hpresent Hblank.
  destruct (target_present _ _ Hpresent) as (i & p & Ht).
  destruct (target_Some _ _ _ _ Ht) as (_ & Hp & Hid & _).
  pose proof (addNoteToPlant_target clock _ text _ _ _ Hacc Ht) as Hadd.
  eexists _, _, (noted clock text p). unfold handleAddNote, bind.
  rewrite Hsel. destruct (trim text) as [|c s]; [contradiction|]. simpl.
  rewrite Hadd. split; [reflexivity|]. split; [reflexivity|].
  rewrite entries_written. simpl. rewrite Hsync.
  split; [|repeat split].
  apply (fmap_replace_unique _ _ _ _ p); [assumption.. | reflexivity].
Qed.

Lemma X12_witness :
  exists a' st' p',
    handleAddNote Sample.clock (js " Repotted ") Example.in_sync Example.store
    = (Return a', st')
    /\ plants a' = entries st'
    /\ selectedPlant a' = Some p'
    /\ notes_or_empty p' !! 0
       = Some (PlantNote.mk (Date_now_toString Sample.clock)
                 (Date_toISOString Sample.clock) (js " Repotted ")).
Proof.
  destruct (X12_handleAddNote_stores_and_keeps_sync Sample.clock Example.store
              Example.in_sync Sample.e1 (js " Repotted "))
    as (a' & st' & p' & Hcall & _ & Hsync & Hsel & Hnote & _).
  - reflexivity.
  - vm_compute. repeat constructor; rewrite ?elem_of_cons, ?elem_of_nil;
      intros H; intuition discriminate.
  - reflexivity.
  - reflexivity.
  - exists Sample.e1. split; [|reflexivity].
    vm_compute. apply list_elem_of_further, list_elem_of_here.
  - discriminate.
  - exists a', st', p'. repeat split; assumption.
Defined.

(** X13. A confirmed click on the delete button removes every entry with
    the id of the selected plant from the store and from the copy of the
    component alike, so that a copy in step with the store stays in step;
    the view goes to HOME, the toast says so, and the selection is not
    cleared. A click that is not confirmed changes nothing. *)
Theorem X13_delete_click {A : Type} (st : Storage) (u : Ui A)
    (selected : UserPlant.t) :
  selectedPlant (app u) = Some selected ->
  (access st = Granted -> plants (app u) = entries st ->
   exists u' st',
     renderDetails_onDelete true u st = (Return u', st')
     /\ plants (app u') = entries st'
     /\ (forall p, p ∈ entries st' <->
                   p ∈ entries st /\ UserPlant.id p ≠ UserPlant.id selected)
     /\ view u' = HOME
     /\ selectedPlant (app u') = Some selected
     /\ toast (app u')
        = Some (ToastMessage.mk ToastMessage.info (js "Planta eliminada")))
  /\ renderDetails_onDelete false u st = (Return u, st).
Proof.
  intros Hsel. unfold renderDetails_onDelete. rewrite Hsel.
  split; [|reflexivity].
  intros Hacc Hsync. unfold bind.
  rewrite (deletePlant_granted _ _ Hacc). eexists _, _.
  split; [reflexivity|]. rewrite entries_written. simpl.
  rewrite Hsync, Hsel. split; [reflexivity|]. split; [|repeat split].
  intros p. rewrite list_elem_of_filter. tauto.
Qed.

Lemma X13_witness :
  (exists u' st',
     renderDetails_onDelete true (@Example.details JSON) Example.store
     = (Return u', st')
     /\ plants (app u') = [Sample.e2] /\ entries st' = [Sample.e2]
     /\ view u' = HOME)
  /\ renderDetails_onDelete false (@Example.details JSON) Example.store
     = (Return Example.details, Example.store).
Proof.
  destruct (X13_delete_click Example.store (@Example.details JSON) Sample.e1
              eq_refl) as [Hyes Hno].
  split; [|exact Hno].
  destruct (Hyes eq_refl eq_refl) as (u' & st' & Hcall & Hsync & _ & Hview & _).
  exists u', st'. split; [exact Hcall|].
  vm_compute in Hcall. injection Hcall as <- <-.
  repeat split; vm_compute; reflexivity.
Defined.

(** X14. With an analysis and a captured image at hand and a storage that
    accepts the write, [saveCurrentPlant] saves one new entry made of the
    analysis, the image and the two clock readings, not a favorite and
    without notes; it puts it in front both in the store and in the copy
    of the component, selects it, shows the details view and clears the
    camera. Without an analysis, or without an image, nothing is saved. *)
Theorem X14_saveCurrentPlant (clock : Clock) (st : Storage)
    (u : Ui PlantAnalysis.t) :
  (forall analysis image,
     Camera.analysisResult (camera u) = Some analysis ->
     Camera.capturedImage (camera u) = Some image -> image ≠ [] ->
     access st = Granted ->
     exists u' st' newPlant,
       saveCurrentPlant clock u st = (Return u', st')
       /\ newPlant
          = UserPlant.mk analysis (Date_now_toString clock) image
              (Date_toISOString clock) false (Some [])
       /\ entries st' = newPlant :: entries st
       /\ plants (app u') = newPlant :: plants (app u)
       /\ selectedPlant (app u') = Some newPlant
       /\ view u' = DETAILS
       /\ Camera.capturedImage (camera u') = None
       /\ Camera.analysisResult (camera u') = None)
  /\ (Camera.analysisResult (camera u) = None
      \/ truthy (Camera.capturedImage (camera u)) = false ->
      saveCurrentPlant clock u st = (Return u, st)).
Proof.
  split.
  - intros analysis image Han Him Hne Hacc. unfold saveCurrentPlant.
    rewrite Han, Him. destruct image as [|c image]; [contradiction|]. simpl.
    unfold bind. rewrite (savePlant_granted _ _ Hacc). eexists _, _, _.
    split; [reflexivity|]. split; [reflexivity|].
    rewrite entries_written. repeat split.
  - unfold saveCurrentPlant. intros [Hnone | Hfalsy].
    + rewrite Hnone. reflexivity.
    + destruct (Camera.analysisResult (camera u)); [|reflexivity].
      destruct (Camera.capturedImage (camera u)) as [image|]; [|reflexivity].
      simpl in Hfalsy. rewrite Hfalsy. reflexivity.
Qed.

Lemma X14_witness :
  (exists u' st' newPlant,
     saveCurrentPlant Sample.clock Example.captured Example.store
     = (Return u', st')
     /\ entries st' = newPlant :: entries Example.store
     /\ plants (app u') = entries st'
     /\ UserPlant.isFavorite newPlant = false
     /\ UserPlant.notes newPlant = Some [])
  /\ saveCurrentPlant Sample.clock Example.details Example.store
     = (Return Example.details, Example.store).
Proof.
  destruct (X14_saveCurrentPlant Sample.clock Example.store Example.captured)
    as [Hsave _].
  destruct (X14_saveCurrentPlant Sample.clock Example.store Example.details)
    as [_ Hskip].
  split; [|apply Hskip; left; reflexivity].
  destruct (Hsave Sample.monstera (js "data:image/png;base64,DDDD"))
    as (u' & st' & newPlant & Hcall & -> & Hstore & Hcopy & _);
    [reflexivity | reflexivity | discriminate | reflexivity |].
  eexists u', st', _. split; [exact Hcall|]. split; [exact Hstore|].
  rewrite Hcopy, Hstore. repeat split.
Defined.

(** * Further properties of the provider layer *)

Section provider_more.
Variable m : AiModule.
Variable w : World.
Implicit Types (trace : list Event) (parts : list Gemini.Part).

Lemma first_inline_image_cons part parts :
  first_inline_image (part :: parts)
  = if has_payload part then Some (url_of part) else first_inline_image parts.
Proof.
  unfold has_payload, url_of. cbn [first_inline_image].
  destruct (Gemini.inlineData part) as [d|]; [|reflexivity].
  destruct (truthy (Gemini.data d)); reflexivity.
Qed.

Lemma first_inline_image_Some parts url :
  first_inline_image parts = Some url ->
  exists i part,
    parts !! i = Some part /\ has_payload part = true /\ url = url_of part
    /\ forall j part', j < i -> parts !! j = Some part' ->
                       has_payload part' = false.
Proof.
  induction parts as [|part parts IH]; [discriminate|].
  rewrite first_inline_image_cons.
  destruct (has_payload part) eqn:Hpart.
  - intros [= <-]. exists 0, part. repeat split; [assumption|].
    intros j part' Hj. lia.
  - intros Hrest.
    destruct (IH Hrest) as (i & part0 & Hi & Hpay & Hurl & Hbefore).
    exists (S i), part0. repeat split; try assumption.
    intros [|j] part' Hj; simpl.
    + intros [= <-]. assumption.
    + apply Hbefore. lia.
Qed.

Lemma first_inline_image_first parts i part :
  parts !! i = Some part -> has_payload part = true ->
  (forall j part', j < i -> parts !! j = Some part' ->
                   has_payload part' = false) ->
  first_inline_image parts = Some (url_of part).
Proof.
  revert i. induction parts as [|part0 parts IH]; intros i; [discriminate|].
  rewrite first_inline_image_cons. destruct i as [|i]; simpl.
  - intros [= ->] Hpay _. rewrite Hpay. reflexivity.
  - intros Hi Hpay Hbefore.
    rewrite (Hbefore 0 part0) by (lia || reflexivity).
    apply (IH i); [assumption.. |].
    intros j part' Hj Hpart'. apply (Hbefore (S j) part'); [lia | assumption].
Qed.

Lemma first_inline_image_None parts :
  (forall part, part ∈ parts -> has_payload part = false) ->
  first_inline_image parts = None.
Proof.
  induction parts as [|part parts IH]; intros Hnone; [reflexivity|].
  rewrite first_inline_image_cons, (Hnone part) by left.
  apply IH. intros part' Hin. apply Hnone. right. assumption.
Qed.

(** The result and the steps of the two Gemini calls: a request, and
    after a failure the line on the console and the same error again. *)
Lemma identifyWithGemini_outcome base64Image trace :
  let request :=
    models_generateContent
      (identify_request m (strip_data_url_prefix base64Image)) in
  match identifyWithGemini m w base64Image trace with
  | (Return _, trace') => trace' = trace ++ [request]
  | (Throw err, trace') =>
      trace' = trace ++ [request; console_error (js "Gemini Error:") err]
  end.
Proof.
  unfold identifyWithGemini, try_catch, bind, emit, lift, throw, ret.
  destruct (generateContent w
              (identify_request m (strip_data_url_prefix base64Image)))
    as [response|]; simpl; [|rewrite <- app_assoc; reflexivity].
  destruct (Gemini.text response) as [text|]; simpl;
    [|rewrite <- app_assoc; reflexivity].
  destruct (negb (truthy_text text)); simpl;
    [rewrite <- app_assoc; reflexivity|].
  destruct (JSON_parse text) as [data|]; simpl;
    [|rewrite <- app_assoc; reflexivity].
  unfold reject_unknown, bind, lift, throw, ret.
  destruct (get data (js "commonName")) as [x|]; simpl;
    [|rewrite <- app_assoc; reflexivity].
  destruct (strict_equals x (js "Unknown")); simpl;
    [rewrite <- app_assoc; reflexivity|].
  destruct (get data (js "scientificName")) as [y|]; simpl;
    [|rewrite <- app_assoc; reflexivity].
  destruct (strict_equals y (js "Unknown")); simpl;
    [rewrite <- app_assoc; reflexivity | reflexivity].
Qed.

Lemma generateImageWithGemini_outcome prompt trace :
  let request := models_generateContent (image_request m prompt) in
  match generateImageWithGemini m w prompt trace with
  | (Return _, trace') => trace' = trace ++ [request]
  | (Throw err, trace') =>
      trace' = trace ++ [request; console_error (js "Gemini Image Gen Error:") err]
  end.
Proof.
  unfold generateImageWithGemini, try_catch, bind, emit, lift, throw, ret.
  unfold first, throw, ret.
  destruct (generateContent w (image_request m prompt)) as [response|]; simpl;
    [|rewrite <- app_assoc; reflexivity].
  destruct (Gemini.candidates response) as [[|candidate rest]|]; simpl;
    try (rewrite <- app_assoc; reflexivity).
  destruct (Gemini.parts (Gemini.content candidate)) as [parts|]; simpl;
    [|rewrite <- app_assoc; reflexivity].
  destruct (first_inline_image parts) as [url|]; simpl;
    [reflexivity | rewrite <- app_assoc; reflexivity].
Qed.

Lemma generateImageWithGemini_returns prompt trace url trace' :
  generateImageWithGemini m w prompt trace = (Return url, trace') ->
  exists parts, first_inline_image parts = Some url.
Proof.
  unfold generateImageWithGemini, try_catch, bind, emit, lift, throw, ret.
  unfold first, throw, ret.
  destruct (generateContent w (image_request m prompt)) as [response|]; simpl;
    [|discriminate].
  destruct (Gemini.candidates response) as [[|candidate rest]|]; simpl;
    try discriminate.
  destruct (Gemini.parts (Gemini.content candidate)) as [parts|]; simpl;
    [|discriminate].
  destruct (first_inline_image parts) as [url0|] eqn:Hfirst; simpl;
    [|discriminate].
  intros [= <- _]. exists parts. assumption.
Qed.

Lemma generateImageWithOpenAI_returns prompt trace url trace' :
  generateImageWithOpenAI m w prompt trace = (Return url, trace') ->
  exists payload, url = js "data:image/png;base64," ++ payload.
Proof.
  unfold generateImageWithOpenAI.
  destruct (negb (truthy (OPENAI_API_KEY m))); [discriminate|].
  unfold bind, emit, lift, throw, first, ret.
  destruct (fetch_images_generations w (images_request m prompt))
    as [[[data|]|statusText [err|]]|]; try discriminate.
  destruct (OpenAI.data data) as [|image rest]; [discriminate|].
  intros [= <- _]. eexists. reflexivity.
Qed.

(** The sentinel, through the exported call. *)
Lemma identifyPlant_unknown base64Image trace content :
  parsed_reply m w base64Image content ->
  get content (js "commonName") = Return (Some (JString (js "Unknown")))
  \/ get content (js "scientificName")
     = Return (Some (JString (js "Unknown"))) ->
  fst (identifyPlant m w base64Image trace) = Throw NOT_A_PLANT.
Proof.
  intros Hreply Hunknown. unfold identifyPlant.
  destruct Hreply as [data choice rest content Hkey Hfetch Hchoices Hcontent
                     | response content Hkey Hgen Htext];
    rewrite Hkey; unfold bind, emit.
  - unfold identifyWithOpenAI. rewrite Hkey. simpl.
    unfold bind, emit, lift, first, ret.
    rewrite Hfetch, Hchoices, Hcontent. simpl.
    rewrite (reject_unknown_throws _ _ Hunknown). reflexivity.
  - unfold identifyWithGemini, try_catch, bind, emit, lift, throw.
    rewrite Hgen, Htext. simpl.
    rewrite (reject_unknown_throws _ _ Hunknown). reflexivity.
Qed.

Lemma strip_prefix_app (prefix s : jsstring) :
  strip_prefix prefix (prefix ++ s) = Some s.
Proof.
  induction prefix as [|c prefix IH]; simpl; [reflexivity|].
  rewrite bool_decide_eq_true_2 by reflexivity. assumption.
Qed.

Lemma strip_prefix_Some (prefix s rest : jsstring) :
  strip_prefix prefix s = Some rest -> s = prefix ++ rest.
Proof.
  revert s. induction prefix as [|c prefix IH]; intros s; simpl.
  - intros [= ->]. reflexivity.
  - destruct s as [|d s]; [discriminate|].
    destruct (bool_decide (c = d)) eqn:Hcd; [|discriminate].
    apply bool_decide_eq_true in Hcd as ->. intros Hrest.
    rewrite (IH _ Hrest). reflexivity.
Qed.

Lemma strip_first_cases (prefixes : list jsstring) (s : jsstring) :
  strip_first prefixes s = s
  \/ exists prefix, prefix ∈ prefixes /\ s = prefix ++ strip_first prefixes s.
Proof.
  induction prefixes as [|prefix prefixes IH]; simpl; [left; reflexivity|].
  destruct (strip_prefix prefix s) as [rest|] eqn:Hstrip.
  - right. exists prefix. split; [left|]. apply strip_prefix_Some. assumption.
  - destruct IH as [IH | (prefix' & Hin & IH)]; [left; assumption|].
    right. exists prefix'. split; [right|]; assumption.
Qed.
End provider_more.

(** X15. What [generatePlantImage] returns is a data URL: the text
    [data:], a mime type, [;base64,] and a payload. With the OpenAI
    backend the mime type is [image/png]; with the Gemini backend the
    payload is not empty. *)
Theorem X15_generated_image_is_data_url (m : AiModule) (w : World)
    (promptText url : jsstring) (trace trace' : list Event) :
  generatePlantImage m w promptText trace = (Return url, trace') ->
  exists mime payload,
    url = js "data:" ++ mime ++ js ";base64," ++ payload
    /\ (selected (OPENAI_API_KEY m) = OpenAIBackend -> mime = js "image/png")
    /\ (selected (OPENAI_API_KEY m) = GeminiBackend -> payload ≠ []).
Proof.
  unfold generatePlantImage, selected.
  destruct (truthy (OPENAI_API_KEY m)); unfold bind, emit; intros Hr.
  - apply generateImageWithOpenAI_returns in Hr as [payload ->].
    exists (js "image/png"), payload.
    split; [reflexivity|]. split; [reflexivity | discriminate].
  - apply generateImageWithGemini_returns in Hr as [parts Hfirst].
    apply first_inline_image_Some in Hfirst
      as (i & part & _ & Hpay & -> & _).
    unfold has_payload in Hpay. unfold url_of.
    destruct (Gemini.inlineData part) as [d|]; [|discriminate].
    exists (interpolate (Gemini.mimeType d)), (interpolate (Gemini.data d)).
    split; [reflexivity|]. split; [discriminate|]. intros _.
    destruct (Gemini.data d) as [[|c s]|]; simpl in *; discriminate.
Qed.

Lemma X15_witness :
  exists mime payload,
    js "data:image/png;base64,iVBORw0KGgo"
    = js "data:" ++ mime ++ js ";base64," ++ payload
    /\ (selected (OPENAI_API_KEY (load Sample.gemini_only)) = OpenAIBackend ->
        mime = js "image/png")
    /\ (selected (OPENAI_API_KEY (load Sample.gemini_only)) = GeminiBackend ->
        payload ≠ []).
Proof.
  apply (X15_generated_image_is_data_url (load Sample.gemini_only)
           (Sample.answering Sample.partial) (js "a red rose")
           (js "data:image/png;base64,iVBORw0KGgo") []
           [console_log (js "Using Gemini for Image Generation");
            models_generateContent
              (image_request (load Sample.gemini_only) (js "a red rose"))]).
  reflexivity.
Defined.

(** X16. [generateImageWithGemini] reads the parts of the first candidate
    in order and returns the data URL of the first part that carries an
    image, skipping the parts before it; when no part carries one it
    writes the error that no image was generated on the console and
    throws it. *)
Theorem X16_gemini_first_image_part (m : AiModule) (w : World)
    (promptText : jsstring) (trace : list Event)
    (response : Gemini.GenerateContentResponse)
    (candidate : Gemini.Candidate) (rest : list Gemini.Candidate)
    (parts : list Gemini.Part) :
  generateContent w (image_request m promptText) = Return response ->
  Gemini.candidates response = Some (candidate :: rest) ->
  Gemini.parts (Gemini.content candidate) = Some parts ->
  (forall i part,
     parts !! i = Some part -> has_payload part = true ->
     (forall j part', j < i -> parts !! j = Some part' ->
                      has_payload part' = false) ->
     generateImageWithGemini m w promptText trace
     = (Return (url_of part),
        trace ++ [models_generateContent (image_request m promptText)]))
  /\ ((forall part, part ∈ parts -> has_payload part = false) ->
      generateImageWithGemini m w promptText trace
      = (Throw NO_IMAGE,
         trace ++ [models_generateContent (image_request m promptText);
                   console_error (js "Gemini Image Gen Error:") NO_IMAGE])).
Proof.
  intros Hgen Hcandidates Hparts.
  unfold generateImageWithGemini, try_catch, bind, emit, lift, throw, ret.
  rewrite Hgen, Hcandidates. simpl. rewrite Hparts. split.
  - intros i part Hi Hpay Hbefore.
    rewrite (first_inline_image_first _ _ _ Hi Hpay Hbefore). reflexivity.
  - intros Hnone. rewrite (first_inline_image_None _ Hnone).
    unfold throw, bind, emit. rewrite <- app_assoc. reflexivity.
Qed.

Lemma X16_witness :
  generateImageWithGemini (load Sample.gemini_only)
    (Sample.answering Sample.partial) (js "a red rose") []
  = (Return (js "data:image/png;base64,iVBORw0KGgo"),
     [models_generateContent
        (image_request (load Sample.gemini_only) (js "a red rose"))])
  /\ generateImageWithGemini (load Sample.gemini_only)
       (Example.refusing Example.no_message) (js "a red rose") []
     = (Throw NO_IMAGE,
        [models_generateContent
           (image_request (load Sample.gemini_only) (js "a red rose"));
         console_error (js "Gemini Image Gen Error:") NO_IMAGE]).
Proof.
  split.
  - eapply (X16_gemini_first_image_part (load Sample.gemini_only)
              (Sample.answering Sample.partial) (js "a red rose") [] _ _ _ _
              eq_refl eq_refl eq_refl)
      with (i := 1)
           (part := {| Gemini.inlineData :=
                         Some {| Gemini.mimeType := Some (js "image/png");
                                 Gemini.data := Some (js "iVBORw0KGgo") |} |}).
    + reflexivity.
    + reflexivity.
    + intros [|j] part' Hj; [intros [= <-]; reflexivity | lia].
  - eapply (X16_gemini_first_image_part (load Sample.gemini_only)
              (Example.refusing Example.no_message) (js "a red rose") [] _ _ _ _
              eq_refl eq_refl eq_refl).
    intros part Hin.
    repeat (apply elem_of_cons in Hin as [-> | Hin]; [reflexivity|]).
    inversion Hin.
Defined.



(** X18. The two Gemini calls make one request each. When they return
    they write nothing on the console; when they fail, whatever fails,
    they write the error once on the console under their label and throw
    that same error; an error of the request itself comes out
    unchanged. *)
Theorem X18_gemini_failure_logged_and_rethrown (m : AiModule) (w : World)
    (base64Image promptText : jsstring) (trace : list Event) :
  (forall r trace',
     identifyWithGemini m w base64Image trace = (r, trace') ->
     trace'
     = trace
       ++ models_generateContent
            (identify_request m (strip_data_url_prefix base64Image))
          :: match r with
             | Return _ => []
             | Throw err => [console_error (js "Gemini Error:") err]
             end)
  /\ (forall r trace',
        generateImageWithGemini m w promptText trace = (r, trace') ->
        trace'
        = trace
          ++ models_generateContent (image_request m promptText)
             :: match r with
                | Return _ => []
                | Throw err =>
                    [console_error (js "Gemini Image Gen Error:") err]
                end)
  /\ (forall err,
        generateContent w
          (identify_request m (strip_data_url_prefix base64Image))
        = Throw err ->
        fst (identifyWithGemini m w base64Image trace) = Throw err)
  /\ (forall err,
        generateContent w (image_request m promptText) = Throw err ->
        fst (generateImageWithGemini m w promptText trace) = Throw err).
Proof.
  split; [|split; [|split]].
  - intros r trace' Hr.
    pose proof (identifyWithGemini_outcome m w base64Image trace) as Hout.
    simpl in Hout. rewrite Hr in Hout. destruct r; exact Hout.
  - intros r trace' Hr.
    pose proof (generateImageWithGemini_outcome m w promptText trace) as Hout.
    simpl in Hout. rewrite Hr in Hout. destruct r; exact Hout.
  - intros err Herr.
    unfold identifyWithGemini, try_catch, bind, emit, lift, throw.
    rewrite Herr. reflexivity.
  - intros err Herr.
    unfold generateImageWithGemini, try_catch, bind, emit, lift, throw.
    rewrite Herr. reflexivity.
Qed.

Lemma X18_witness :
  snd (identifyWithGemini (load Sample.gemini_only)
         (Sample.answering Sample.unknown_common)
         (js "data:image/png;base64,AAAA") [])
  = [models_generateContent
       (identify_request (load Sample.gemini_only) (js "AAAA"));
     console_error (js "Gemini Error:") NOT_A_PLANT].
Proof.
  destruct (X18_gemini_failure_logged_and_rethrown (load Sample.gemini_only)
              (Sample.answering Sample.unknown_common)
              (js "data:image/png;base64,AAAA") (js "a red rose") [])
    as (Hidentify & _).
  apply (Hidentify (Throw NOT_A_PLANT)). reflexivity.
Defined.

(** X19. Before an image goes to Gemini the prefix of a data URL of type
    png, jpeg, jpg or webp is taken off, and nothing else ever is: the
    text that is sent is the payload of such a URL, or the image text as
    it was given; the request declares it as [image/jpeg] whatever the
    type of the URL. *)
Theorem X19_strip_data_url_prefix (m : AiModule) (payload s : jsstring) :
  strip_data_url_prefix (js "data:image/png;base64," ++ payload) = payload
  /\ strip_data_url_prefix (js "data:image/jpeg;base64," ++ payload) = payload
  /\ strip_data_url_prefix (js "data:image/jpg;base64," ++ payload) = payload
  /\ strip_data_url_prefix (js "data:image/webp;base64," ++ payload) = payload
  /\ (strip_data_url_prefix s = s
      \/ exists prefix,
           prefix ∈ [js "data:image/png;base64,"; js "data:image/jpeg;base64,";
                     js "data:image/jpg;base64,"; js "data:image/webp;base64,"]
           /\ s = prefix ++ strip_data_url_prefix s)
  /\ identify_request m
       (strip_data_url_prefix (js "data:image/webp;base64," ++ payload))
     = {| Gemini.apiKey := geminiAi m;
          Gemini.model := js "gemini-2.5-flash";
          Gemini.contents := Gemini.InlineImage (js "image/jpeg") payload |}.
Proof.
  repeat split. apply strip_first_cases.
Qed.

(** X20. [runIdentification] does not throw and ends with [analyzing]
    off. When [identifyPlant] returns, its result is kept as the analysis
    and the captured image stays; when it throws, the captured image is
    dropped, the analysis is left as it was, and the toast shows the
    message of the error, or a fixed text when the message is empty. *)
Theorem X20_runIdentification_outcome (m : AiModule) (w : World)
    (dom_message : jsstring -> jsstring) (base64Image : jsstring)
    (u : Ui JSON) (trace trace' : list Event) (r : Result JSON) :
  identifyPlant m w base64Image trace = (r, trace') ->
  exists u',
    runIdentification m w dom_message base64Image u trace = (Return u', trace')
    /\ Camera.analyzing (camera u') = false
    /\ view u' = view u
    /\ plants (app u') = plants (app u)
    /\ match r with
       | Return data =>
           Camera.analysisResult (camera u') = Some data
           /\ Camera.capturedImage (camera u') = Camera.capturedImage (camera u)
           /\ toast (app u') = toast (app u)
       | Throw err =>
           Camera.analysisResult (camera u') = Camera.analysisResult (camera u)
           /\ Camera.capturedImage (camera u') = None
           /\ toast (app u')
              = Some (ToastMessage.mk ToastMessage.error
                        (if truthy_string (message_of dom_message err)
                         then message_of dom_message err
                         else js "Error identificando la planta."))
       end.
Proof.
  intros Hr. unfold runIdentification, try_catch, bind, ret.
  rewrite Hr. destruct r as [data|err]; eexists; repeat split.
Qed.

Lemma X20_witness :
  exists u',
    runIdentification (load Sample.gemini_only)
      (Sample.answering Example.rose) Example.dom_message
      (js "data:image/png;base64,DDDD") Example.shooting []
    = (Return u',
       [console_log (js "Using Gemini for Identification");
        models_generateContent
          (identify_request (load Sample.gemini_only) (js "DDDD"))])
    /\ Camera.analyzing (camera u') = false
    /\ Camera.analysisResult (camera u') = Some Example.rose
    /\ Camera.capturedImage (camera u')
       = Some (js "data:image/png;base64,DDDD").
Proof.
  destruct (X20_runIdentification_outcome (load Sample.gemini_only)
              (Sample.answering Example.rose) Example.dom_message
              (js "data:image/png;base64,DDDD") Example.shooting []
              [console_log (js "Using Gemini for Identification");
               models_generateContent
                 (identify_request (load Sample.gemini_only) (js "DDDD"))]
              (Return Example.rose) eq_refl)
    as (u' & Hrun & Hoff & _ & _ & Hresult & Himage & _).
  exists u'. repeat split; assumption.
Defined.

(** X21. When the reply of the selected backend says ["Unknown"] for
    either name, [runIdentification] shows the toast that no plant could
    be identified, drops the captured image and keeps no analysis of this
    reply. *)
Theorem X21_unknown_plant_on_screen (m : AiModule) (w : World)
    (dom_message : jsstring -> jsstring) (base64Image : jsstring)
    (u : Ui JSON) (trace : list Event) (content : JSON) :
  parsed_reply m w base64Image content ->
  get content (js "commonName") = Return (Some (JString (js "Unknown")))
  \/ get content (js "scientificName")
     = Return (Some (JString (js "Unknown"))) ->
  exists u' trace',
    runIdentification m w dom_message base64Image u trace = (Return u', trace')
    /\ toast (app u')
       = Some (ToastMessage.mk ToastMessage.error
                 (js "No se pudo identificar una planta en esta imagen."))
    /\ Camera.capturedImage (camera u') = None
    /\ Camera.analysisResult (camera u') = Camera.analysisResult (camera u)
    /\ Camera.analyzing (camera u') = false.
Proof.
  intros Hreply Hunknown.
  pose proof (identifyPlant_unknown m w base64Image trace content Hreply
                Hunknown) as Hthrow.
  unfold runIdentification, try_catch, bind, ret.
  destruct (identifyPlant m w base64Image trace) as [r trace'].
  simpl in Hthrow. subst r. eexists _, _. repeat split.
Qed.

Lemma X21_witness :
  exists u' trace',
    runIdentification (load Sample.with_openai)
      (Sample.answering Sample.unknown_scientific) Example.dom_message
      (js "data:image/png;base64,DDDD") Example.shooting []
    = (Return u', trace')
    /\ toast (app u')
       = Some (ToastMessage.mk ToastMessage.error
                 (js "No se pudo identificar una planta en esta imagen."))
    /\ Camera.capturedImage (camera u') = None
    /\ Camera.analysisResult (camera u') = None
    /\ Camera.analyzing (camera u') = false.
Proof.
  apply (X21_unknown_plant_on_screen (load Sample.with_openai)
           (Sample.answering Sample.unknown_scientific) Example.dom_message
           (js "data:image/png;base64,DDDD") Example.shooting []
           Sample.unknown_scientific).
  - eapply parsed_openai; reflexivity.
  - right. reflexivity.
Defined.

(** X22. [handleGenerateImage] does not throw and ends with [generating]
    off. With a blank prompt it does nothing at all. Otherwise it makes
    one call of [generatePlantImage]: the image that call returns becomes
    the generated image; when the call throws, no generated image is
    left and the toast shows one fixed text, whatever the error was. *)
Theorem X22_handleGenerateImage_outcome (m : AiModule) (w : World) (a : App)
    (trace : list Event) :
  (trim (prompt a) = [] -> handleGenerateImage m w a trace = (Return a, trace))
  /\ (trim (prompt a) ≠ [] ->
      forall r trace',
        generatePlantImage m w (prompt a ++ CALLER_STYLE) trace = (r, trace') ->
        exists a',
          handleGenerateImage m w a trace = (Return a', trace')
          /\ generating a' = false
          /\ prompt a' = prompt a
          /\ plants a' = plants a
          /\ match r with
             | Return url =>
                 generatedImage a' = Some url /\ toast a' = toast a
             | Throw _ =>
                 generatedImage a' = None
                 /\ toast a'
                    = Some (ToastMessage.mk ToastMessage.error
                              (js "No se pudo generar la imagen. Intenta de nuevo."))
             end).
Proof.
  unfold handleGenerateImage. split.
  - intros ->. reflexivity.
  - intros Hblank r trace' Hr.
    destruct (trim (prompt a)) as [|c s]; [contradiction|]. simpl.
    unfold try_catch, bind, ret. simpl. rewrite Hr.
    destruct r as [url|err]; eexists; repeat split.
Qed.

Lemma X22_witness :
  handleGenerateImage (load Sample.with_openai)
    (Example.refusing Example.invalid_key)
    (setGeneratedImage (Some (js "data:image/png;base64,AAAA")) Sample.app) []
  = (Return
       (showToast ToastMessage.error
          (js "No se pudo generar la imagen. Intenta de nuevo.") Sample.app),
     [console_log (js "Using OpenAI for Image Generation");
      images_generations
        (images_request (load Sample.with_openai)
           (js "a red rose . Photorealistic, high quality, botanical photography style."))]).
Proof.
  destruct (X22_handleGenerateImage_outcome (load Sample.with_openai)
              (Example.refusing Example.invalid_key)
              (setGeneratedImage (Some (js "data:image/png;base64,AAAA"))
                 Sample.app) []) as [_ Hcall].
  destruct (Hcall ltac:(discriminate)
              (Throw (Error (js "OpenAI Error: Incorrect API key provided")))
              [console_log (js "Using OpenAI for Image Generation");
               images_generations
                 (images_request (load Sample.with_openai)
                    (js "a red rose . Photorealistic, high quality, botanical photography style."))]
              eq_refl)
    as (a' & Hrun & _).
  rewrite Hrun. vm_compute in Hrun. injection Hrun as <-. reflexivity.
Defined.

(** X23. Where two entries share an id, [handleToggleFavorite] lets the
    copy of the component and the store drift apart: the store changes
    the first entry of the id only, while the copy gets the updated first
    entry at every index that holds the id. *)
Theorem X23_handleToggleFavorite_duplicates (st : Storage) (a : App)
    (plantId : jsstring) (i j : nat) (p q : UserPlant.t) :
  access st = Granted -> plants a = entries st ->
  i < j -> entries st !! i = Some p -> entries st !! j = Some q ->
  UserPlant.id p = plantId -> UserPlant.id q = plantId ->
  (forall k r, k < i -> entries st !! k = Some r -> UserPlant.id r ≠ plantId) ->
  exists a' st' p',
    handleToggleFavorite plantId a st = (Return a', st')
    /\ p' = UserPlant.set_isFavorite (negb (UserPlant.isFavorite p)) p
    /\ entries st' !! i = Some p' /\ plants a' !! i = Some p'
    /\ entries st' !! j = Some q /\ plants a' !! j = Some p'.
Proof.
  intros Hacc Hsync Hij Hp Hq Hidp Hidq Hfirst.
  assert (Ht : target plantId st = Some (i, p)).
  { destruct (target_present plantId st) as (i0 & p0 & Ht0).
    { exists p. split; [|assumption]. apply list_elem_of_lookup. eauto. }
    destruct (target_Some _ _ _ _ Ht0) as (_ & Hp0 & Hid0 & Hbefore0).
    destruct (Nat.lt_trichotomy i0 i) as [Hlt|[->|Hgt]].
    - destruct (Hfirst i0 p0 Hlt Hp0 Hid0).
    - congruence.
    - destruct (Hbefore0 i p Hgt Hp Hidp). }
  pose proof (toggleFavoritePlant_target _ _ _ _ Hacc Ht) as Htoggle.
  eexists _, _, (toggled p). unfold handleToggleFavorite, bind.
  rewrite Htoggle. split; [reflexivity|]. split; [reflexivity|].
  rewrite entries_written.
  assert (Hcopy : forall k r (b : App),
            entries st !! k = Some r -> UserPlant.id r = plantId ->
            plants b = (fun x => if id_is plantId x then toggled p else x)
                         <$> entries st ->
            plants b !! k = Some (toggled p)).
  { intros k r b Hr Hidr ->. rewrite list_lookup_fmap, Hr. simpl.
    rewrite (proj2 (id_is_true plantId r) Hidr). reflexivity. }
  assert (Hplants : forall b : App,
            plants b = (fun x => if id_is plantId x then toggled p else x)
                         <$> entries st ->
            entries (written (<[i := toggled p]> (entries st)) st) !! i
            = Some (toggled p)
            /\ plants b !! i = Some (toggled p)
            /\ <[i := toggled p]> (entries st) !! j = Some q
            /\ plants b !! j = Some (toggled p)).
  { intros b Hb. rewrite entries_written. split; [|split; [|split]].
    - apply list_lookup_insert_eq. eapply lookup_lt_Some. eassumption.
    - apply (Hcopy i p b); assumption.
    - rewrite list_lookup_insert_ne by lia. assumption.
    - apply (Hcopy j q b); assumption. }
  rewrite entries_written in Hplants.
  destruct (selectedPlant _) as [selected|]; [destruct (id_is _ selected)|];
    apply Hplants; simpl; rewrite Hsync; reflexivity.
Qed.

Lemma X23_witness :
  exists a' st' p',
    handleToggleFavorite (js "1") Sample.app Sample.store = (Return a', st')
    /\ p' = UserPlant.set_isFavorite true Sample.e1
    /\ entries st' !! 1 = Some p' /\ plants a' !! 1 = Some p'
    /\ entries st' !! 2 = Some Sample.e1_older /\ plants a' !! 2 = Some p'.
Proof.
  apply (X23_handleToggleFavorite_duplicates Sample.store Sample.app (js "1")
           1 2 Sample.e1 Sample.e1_older); try reflexivity; [lia|].
  intros [|k] r Hk; [intros [= <-]; discriminate | lia].
Defined.

(** X24. A success reply of OpenAI that cannot be read as an analysis
    makes [identifyPlant] throw, and not the error that no plant was
    seen: a [TypeError] when the reply has no choice or when its content
    is the JSON [null], and a [SyntaxError] when the content is not
    JSON. *)
Theorem X24_openai_malformed_reply (m : AiModule) (w : World)
    (base64Image : jsstring) (trace : list Event)
    (data : OpenAI.ChatCompletion) :
  truthy (OPENAI_API_KEY m) = true ->
  fetch_chat_completions w (chat_request m base64Image)
  = Return (HttpOk (Return data)) ->
  (OpenAI.choices data = [] ->
   exists message,
     fst (identifyPlant m w base64Image trace) = Throw (TypeError message))
  /\ (forall choice rest,
        OpenAI.choices data = choice :: rest ->
        OpenAI.content (OpenAI.message choice) = JsonOf JNull ->
        exists message,
          fst (identifyPlant m w base64Image trace)
          = Throw (TypeError message))
  /\ (forall choice rest text,
        OpenAI.choices data = choice :: rest ->
        OpenAI.content (OpenAI.message choice) = NotJson text ->
        exists message,
          fst (identifyPlant m w base64Image trace)
          = Throw (SyntaxError message)).
Proof.
  intros Hkey Hfetch.
  unfold identifyPlant, identifyWithOpenAI. rewrite Hkey. simpl.
  unfold bind, emit, lift, first, throw, ret. rewrite Hfetch.
  split; [|split].
  - intros ->. eexists. reflexivity.
  - intros choice rest -> ->. eexists. reflexivity.
  - intros choice rest text -> ->. eexists. reflexivity.
Qed.

Lemma X24_witness :
  exists message,
    fst (identifyPlant (load Sample.with_openai) (Sample.answering JNull)
           (js "data:image/png;base64,AAAA") [])
    = Throw (TypeError message).
Proof.
  destruct (X24_openai_malformed_reply (load Sample.with_openai)
              (Sample.answering JNull) (js "data:image/png;base64,AAAA") []
              {| OpenAI.choices :=
                   [{| OpenAI.message :=
                         {| OpenAI.content := JsonOf JNull |} |}] |}
              eq_refl eq_refl) as (_ & Hnull & _).
  apply (Hnull _ [] eq_refl eq_refl).
Defined.

(** X25. The OpenAI image path takes the first item of the reply and does
    not look at its payload: it returns a PNG data URL made of whatever
    [b64_json] holds, and for an item without [b64_json] a URL that ends
    in the text [undefined], where the Gemini path would throw that no
    image was generated. *)
Theorem X25_openai_image_payload_unchecked (m : AiModule) (w : World)
    (promptText : jsstring) (trace : list Event)
    (data : OpenAI.ImagesResponse) (image : OpenAI.Image)
    (rest : list OpenAI.Image) :
  truthy (OPENAI_API_KEY m) = true ->
  fetch_images_generations w (images_request m promptText)
  = Return (HttpOk (Return data)) ->
  OpenAI.data data = image :: rest ->
  fst (generatePlantImage m w promptText trace)
  = Return (js "data:image/png;base64,"
              ++ match OpenAI.b64_json image with
                 | Some b64 => b64
                 | None => js "undefined"
                 end).
Proof.
  intros Hkey Hfetch Hdata.
  unfold generatePlantImage, generateImageWithOpenAI. rewrite Hkey. simpl.
  unfold bind, emit, lift, first, throw, ret. rewrite Hfetch. simpl.
  rewrite Hdata. reflexivity.
Qed.

Lemma X25_witness :
  fst (generatePlantImage (load Sample.with_openai)
         {| fetch_chat_completions :=
              fetch_chat_completions (Sample.answering JNull);
            fetch_images_generations := fun _ =>
              Return (HttpOk (Return
                {| OpenAI.data := [{| OpenAI.b64_json := None |}] |}));
            generateContent := generateContent (Sample.answering JNull) |}
         (js "a red rose") [])
  = Return (js "data:image/png;base64,undefined").
Proof.
  apply (X25_openai_image_payload_unchecked (load Sample.with_openai)
           {| fetch_chat_completions :=
                fetch_chat_completions (Sample.answering JNull);
              fetch_images_generations := fun _ =>
                Return (HttpOk (Return
                  {| OpenAI.data := [{| OpenAI.b64_json := None |}] |}));
              generateContent := generateContent (Sample.answering JNull) |}
           (js "a red rose") []
           {| OpenAI.data := [{| OpenAI.b64_json := None |}] |}
           {| OpenAI.b64_json := None |} []); reflexivity.
Defined.
